(** * bitcoin-abm-v2: the client-side synchronisation core

    A shallow embedding of the stateful parts of the React front end:

    - [useSimulation]  (frontend/src/hooks/useSimulation.js): the hook that
      owns the displayed snapshot, the error banner, the socket and the
      interval timer of the continuous run driver;
    - [AnalysisTab]    (frontend/src/components/AnalysisTab.jsx): the bounded
      history window and the views derived from it;
    - [App]            (frontend/src/App.jsx): the scenario hypothesis bar.

    React state is modelled by explicit state passing: every callback of the
    hook is a function [Hook -> Hook], every effect of a component a function
    on the component's state.  Things the code does to the outside world
    (socket emits, fetches, setInterval / clearInterval) are appended to a
    log kept in the state, in program order.

    JavaScript numbers that hold metric values are IEEE-754 doubles and are
    modelled by Rocq's primitive floats; the step counter, which the server
    produces by counting up from zero, is a natural number in binary ([N]). *)

From Stdlib Require Import NArith List String Bool Floats Lia.
From stdpp Require Import gmap strings list pretty.

Local Open Scope string_scope.
Local Open Scope N_scope.

(* ===================================================================== *)
(** * Data model *)
(* ===================================================================== *)

(** A JS object used as a string-keyed bundle of numbers. *)
Abbreviation Metrics := (gmap string float).

(** Scenario parameters sent with a reset: an opaque key/value bundle. *)
Abbreviation Params := (gmap string string).

(** [{ ...base, ...over }]: own keys of [over] win over those of [base]. *)
Definition spread {V} (base over : gmap string V) : gmap string V := over ∪ base.

(** [a ?? b] on a possibly absent (undefined / null) value. *)
Definition nullish {A} (a : option A) (b : A) : A :=
  match a with Some x => x | None => b end.

(** [a || {}] on a possibly absent object. *)
Definition orEmpty {V} (a : option (gmap string V)) : gmap string V :=
  match a with Some m => m | None => ∅ end.

(** The snapshot object carried by a [state_update] event or found under
    [data.state] in a REST envelope.  Every field may be missing. *)
Record Snapshot := mkSnapshot {
  snap_step     : option N;
  snap_metrics  : option Metrics;
  snap_activity : option Metrics;
}.

(** The [simState] React state of the hook. *)
Module SimState.
Record t := mk { step : N; running : bool }.
End SimState.

(** What the hook does to the outside world. *)
Inductive Effect :=
| EmitStep (count : N)            (* socket.emit('step', { count })          *)
| EmitReset (params : Params)     (* socket.emit('reset', params)            *)
| PostStep                        (* fetch('/api/step', { method: 'POST' })  *)
| PostReset (params : Params)     (* fetch('/api/reset', { ..., body })      *)
| SetInterval (id : positive) (ms : N)
| ClearInterval (id : positive)
| SocketDisconnect.               (* socket.disconnect()                     *)

(** How an awaited [fetch(...)] followed by [res.json()] settles. *)
Inductive FetchResult :=
| Threw (message : string)        (* the promise rejects: the catch block runs *)
| Envelope (status : string) (state : option Snapshot).

(* ===================================================================== *)
(** * hooks/useSimulation.js *)
(* ===================================================================== *)

Module useSimulation.

(** State owned by one mounted instance of the hook: the four [useState]
    cells, the three refs, and the part of the browser the refs point to
    (the socket's [connected] flag and the table of live interval timers). *)
Record Hook := mkHook {
  connected   : bool;                (* useState(false)                *)
  simState    : SimState.t;          (* useState({step, running})      *)
  metrics     : Metrics;             (* useState({...})                *)
  metricsId   : nat;                 (* identity of the [metrics] object:
                                        every setMetrics stores a fresh one *)
  error       : option string;       (* useState(null)                 *)
  socketLive  : bool;                (* socketRef.current?.connected   *)
  runningRef  : bool;                (* runningRef.current             *)
  intervalRef : option positive;     (* intervalRef.current            *)
  timers      : list positive;       (* intervals set and not cleared  *)
  nextTimer   : positive;            (* next handle setInterval returns *)
  effects     : list Effect;         (* log, oldest first              *)
}.

Definition defaultMetrics : Metrics :=
  <["block_height" := 0%float]>
  (<["hashrate" := 100%float]>
  (<["difficulty" := 1%float]>
  (<["mempool_size" := 0%float]>
  (<["avg_fee" := 1%float]>
  (<["blocks_mined" := 0%float]>
  (<["transactions_processed" := 0%float]>
  (<["bips_proposed" := 0%float]> ∅))))))).

(** The state right after the first render and the socket set-up effect. *)
Definition initial : Hook :=
  {| connected := false;
     simState := SimState.mk 0 false;
     metrics := defaultMetrics;
     metricsId := 0%nat;
     error := None;
     socketLive := false;
     runningRef := false;
     intervalRef := None;
     timers := [];
     nextTimer := 1%positive;
     effects := [] |}.

(** ** State setters *)

Definition setConnected (b : bool) (h : Hook) : Hook :=
  mkHook b (simState h) (metrics h) (metricsId h) (error h) (socketLive h)
         (runningRef h) (intervalRef h) (timers h) (nextTimer h) (effects h).

Definition setSimState (f : SimState.t -> SimState.t) (h : Hook) : Hook :=
  mkHook (connected h) (f (simState h)) (metrics h) (metricsId h) (error h)
         (socketLive h) (runningRef h) (intervalRef h) (timers h)
         (nextTimer h) (effects h).

Definition setMetrics (f : Metrics -> Metrics) (h : Hook) : Hook :=
  mkHook (connected h) (simState h) (f (metrics h)) (S (metricsId h)) (error h)
         (socketLive h) (runningRef h) (intervalRef h) (timers h)
         (nextTimer h) (effects h).

Definition setError (e : option string) (h : Hook) : Hook :=
  mkHook (connected h) (simState h) (metrics h) (metricsId h) e
         (socketLive h) (runningRef h) (intervalRef h) (timers h)
         (nextTimer h) (effects h).

Definition setSocketLive (b : bool) (h : Hook) : Hook :=
  mkHook (connected h) (simState h) (metrics h) (metricsId h) (error h) b
         (runningRef h) (intervalRef h) (timers h) (nextTimer h) (effects h).

Definition setRunningRef (b : bool) (h : Hook) : Hook :=
  mkHook (connected h) (simState h) (metrics h) (metricsId h) (error h)
         (socketLive h) b (intervalRef h) (timers h) (nextTimer h) (effects h).

Definition setIntervalRef (r : option positive) (h : Hook) : Hook :=
  mkHook (connected h) (simState h) (metrics h) (metricsId h) (error h)
         (socketLive h) (runningRef h) r (timers h) (nextTimer h) (effects h).

Definition perform (e : Effect) (h : Hook) : Hook :=
  mkHook (connected h) (simState h) (metrics h) (metricsId h) (error h)
         (socketLive h) (runningRef h) (intervalRef h) (timers h)
         (nextTimer h) (effects h ++ [e]).

(** [setInterval(callback, ms)]: registers a timer, returns its handle.
    Handles are positive integers, hence truthy. *)
Definition setInterval (ms : N) (h : Hook) : positive * Hook :=
  let id := nextTimer h in
  (id,
   mkHook (connected h) (simState h) (metrics h) (metricsId h) (error h)
          (socketLive h) (runningRef h) (intervalRef h) (timers h ++ [id])
          (Pos.succ id) (effects h ++ [SetInterval id ms])).

(** [clearInterval(id)]: the timer, if live, never fires again. *)
Definition clearInterval (id : positive) (h : Hook) : Hook :=
  mkHook (connected h) (simState h) (metrics h) (metricsId h) (error h)
         (socketLive h) (runningRef h) (intervalRef h)
         (filter (fun t => t <> id) (timers h))
         (nextTimer h) (effects h ++ [ClearInterval id]).

(** ** updateFromState (lines 35-50) *)

Definition updateFromState (state : option Snapshot) (h : Hook) : Hook :=
  match state with
  | None => h                                         (* if (!state) return *)
  | Some state =>
      let h := setSimState (fun prev =>
                 SimState.mk (nullish (snap_step state) (SimState.step prev))
                             (SimState.running prev)) h in
      match snap_metrics state with
      | Some m =>
          setMetrics (fun prev =>
            spread (spread prev m) (orEmpty (snap_activity state))) h
      | None => h
      end
  end.

(** ** Socket event handlers (lines 61-80) *)

Definition onConnect (h : Hook) : Hook :=
  setError None (setConnected true (setSocketLive true h)).

Definition onDisconnect (h : Hook) : Hook :=
  setConnected false (setSocketLive false h).

Definition onConnectError (h : Hook) : Hook :=
  setConnected false
    (setError (Some "Connection failed - is backend running?")
       (setSocketLive false h)).

Definition onStateUpdate (state : option Snapshot) (h : Hook) : Hook :=
  updateFromState state h.

(** ** step (lines 90-105) *)

(** The synchronous part: up to and including the [fetch] call. *)
Definition step (h : Hook) : Hook :=
  if socketLive h then perform (EmitStep 1) h
  else perform PostStep h.

(** The continuation after the awaits on the REST path. *)
Definition stepSettled (r : FetchResult) (h : Hook) : Hook :=
  match r with
  | Envelope status state =>
      if String.eqb status "ok" then updateFromState state h else h
  | Threw message => setError (Some message) h
  end.

(** ** reset (lines 108-137) *)

Definition reset (params : Params) (h : Hook) : Hook :=
  let h :=
    if runningRef h then
      let h := setRunningRef false h in
      let h := setSimState (fun prev =>
                 SimState.mk (SimState.step prev) false) h in
      match intervalRef h with
      | Some id => setIntervalRef None (clearInterval id h)
      | None => h
      end
    else h in
  if socketLive h then perform (EmitReset params) h
  else perform (PostReset params) h.

Definition resetSettled (r : FetchResult) (h : Hook) : Hook :=
  match r with
  | Envelope status state =>
      if String.eqb status "ok" then updateFromState state h else h
  | Threw message => setError (Some message) h
  end.

(** ** run (lines 140-152) *)

Definition run (h : Hook) : Hook :=
  if runningRef h then h                  (* if (runningRef.current) return *)
  else
    let h := setRunningRef true h in
    let h := setSimState (fun prev =>
               SimState.mk (SimState.step prev) true) h in
    let '(id, h) := setInterval 150 h in
    setIntervalRef (Some id) h.

(** The callback given to [setInterval], run by the browser each time
    timer [id] comes due.  A cleared timer does not fire. *)
Definition intervalFired (id : positive) (h : Hook) : Hook :=
  if bool_decide (id ∈ timers h) then
    if runningRef h then step h else h
  else h.

(** One cadence period: every live timer comes due once, in the order
    the timers were set. *)
Definition intervalElapsed (h : Hook) : Hook :=
  fold_left (fun h id => intervalFired id h) (timers h) h.

(** ** stop (lines 155-163) *)

Definition stop (h : Hook) : Hook :=
  let h := setRunningRef false h in
  let h := setSimState (fun prev =>
             SimState.mk (SimState.step prev) false) h in
  match intervalRef h with
  | Some id => setIntervalRef None (clearInterval id h)
  | None => h
  end.

(** ** Unmount: the cleanups of the two mount effects (lines 84-86, 167-171) *)

Definition unmount (h : Hook) : Hook :=
  let h := setSocketLive false (perform SocketDisconnect h) in
  match intervalRef h with
  | Some id => clearInterval id h
  | None => h
  end.

(** ** clearError, and the 5 s timeout that does the same (lines 175-191) *)

Definition clearError (h : Hook) : Hook := setError None h.

(** ** Everything that can happen to a mounted hook *)

Inductive Event :=
| Run | Stop | Step | Reset (params : Params) | ClearError
| Connect | Disconnect | ConnectError
| StateUpdate (state : option Snapshot)
| StepSettled (r : FetchResult)
| ResetSettled (r : FetchResult)
| IntervalFired (id : positive).

Definition handle (h : Hook) (e : Event) : Hook :=
  match e with
  | Run => run h
  | Stop => stop h
  | Step => step h
  | Reset params => reset params h
  | ClearError => clearError h
  | Connect => onConnect h
  | Disconnect => onDisconnect h
  | ConnectError => onConnectError h
  | StateUpdate state => onStateUpdate state h
  | StepSettled r => stepSettled r h
  | ResetSettled r => resetSettled r h
  | IntervalFired id => intervalFired id h
  end.

Definition handleAll (es : list Event) (h : Hook) : Hook :=
  fold_left handle es h.

(** States a mounted hook can be in. *)
Inductive reachable : Hook -> Prop :=
| reachable_initial : reachable initial
| reachable_handle h e : reachable h -> reachable (handle h e).

(** ** Observations used by the statements below *)

Definition displayedStep (h : Hook) : N := SimState.step (simState h).

(** The displayed step after each delivery of a snapshot, in order. *)
Fixpoint displayedSteps (deliveries : list Snapshot) (h : Hook) : list N :=
  match deliveries with
  | [] => []
  | s :: rest =>
      let h := updateFromState (Some s) h in
      displayedStep h :: displayedSteps rest h
  end.

(** The part of the state a snapshot is projected onto. *)
Definition shown (h : Hook) : N * Metrics := (displayedStep h, metrics h).

Definition isStepIntent (e : Effect) : bool :=
  match e with EmitStep _ | PostStep => true | _ => false end.

(** Effects performed between an earlier state and a later one. *)
Definition performedSince (before after : Hook) : list Effect :=
  drop (length (effects before)) (effects after).

(** The reset intent [reset] sends, by the transport that is live. *)
Definition resetIntent (params : Params) (h : Hook) : Effect :=
  if socketLive h then EmitReset params else PostReset params.

(** The run driver is consistent: the [running] flag shown to the UI agrees
    with [runningRef], and the browser holds exactly the timer that
    [intervalRef] names while running and none while stopped. *)
Definition driverOk (h : Hook) : Prop :=
  SimState.running (simState h) = runningRef h
  /\ match intervalRef h with
     | Some id => runningRef h = true /\ timers h = [id]
     | None => runningRef h = false /\ timers h = []
     end.

(** Number of step intents sent during one cadence period. *)
Definition stepsPerInterval (h : Hook) : nat :=
  length (filter (fun e => isStepIntent e = true)
                 (performedSince h (intervalElapsed h))).

End useSimulation.

(* ===================================================================== *)
(** * components/AnalysisTab.jsx *)
(* ===================================================================== *)

Module AnalysisTab.

Definition MAX_HISTORY : nat := 100.

(** Reading a property of a JS object gives [undefined] ([None]) when the
    key is missing; arithmetic turns [undefined] into NaN. *)
Abbreviation JsNumber := (option float).

Definition toNumber (v : JsNumber) : float :=
  match v with Some x => x | None => nan end.

(** [x || d] on numbers: 0, -0 and NaN are falsy. *)
Definition orElse (x d : float) : float :=
  if PrimFloat.eqb x 0 || PrimFloat.is_nan x then d else x.

Definition isNegZero (x : float) : bool :=
  match PrimFloat.classify x with NZero => true | _ => false end.

Definition isPosZero (x : float) : bool :=
  match PrimFloat.classify x with PZero => true | _ => false end.

Definition min2 (a b : float) : float :=
  if PrimFloat.is_nan a || PrimFloat.is_nan b then nan
  else if PrimFloat.ltb a b then a
  else if PrimFloat.ltb b a then b
  else if isNegZero a then a else b.

Definition max2 (a b : float) : float :=
  if PrimFloat.is_nan a || PrimFloat.is_nan b then nan
  else if PrimFloat.ltb a b then b
  else if PrimFloat.ltb b a then a
  else if isPosZero a then a else b.

(** [Math.min(...data)] and [Math.max(...data)]. *)
Definition mathMin (data : list JsNumber) : float :=
  fold_left (fun acc v => min2 acc (toNumber v)) data infinity.

Definition mathMax (data : list JsNumber) : float :=
  fold_left (fun acc v => max2 acc (toNumber v)) data neg_infinity.

(** [arr.slice(-n)]: the last [n] elements, all of them if there are fewer. *)
Definition sliceLast {A} (n : nat) (arr : list A) : list A :=
  drop (length arr - n) arr.

Record HistoryEntry := mkEntry {
  step       : N;
  mempool    : JsNumber;
  fee        : JsNumber;
  blocks     : JsNumber;
  hashrate   : JsNumber;
  difficulty : JsNumber;
}.

(** The props the component reads ([t], the theme, only feeds styling). *)
Record Props := mkProps {
  simState  : SimState.t;
  metrics   : Metrics;
  metricsId : nat;          (* identity of the [metrics] object *)
}.

(** Component state: the [history] cell, and the props of the last
    committed render, against which React compares effect dependencies
    ([None] before the first render). *)
Record Tab := mkTab {
  history   : list HistoryEntry;
  committed : option Props;
}.

Definition unmounted : Tab := mkTab [] None.

Definition newEntry (p : Props) : HistoryEntry :=
  {| step       := SimState.step (simState p);
     mempool    := metrics p !! "mempool_size";
     fee        := metrics p !! "avg_fee";
     blocks     := metrics p !! "blocks_mined";
     hashrate   := metrics p !! "hashrate";
     difficulty := metrics p !! "difficulty" |}.

(** The updater passed to [setHistory] by the tracking effect
    (lines 343-359). *)
Definition appendEntry (p : Props) (prev : list HistoryEntry)
  : list HistoryEntry :=
  let updated := (prev ++ [newEntry p])%list in
  if (MAX_HISTORY <? length updated)%nat
  then sliceLast MAX_HISTORY updated
  else updated.

(** Dependency [simState.step] differs from the last commit (Object.is on
    numbers), or this is the first render. *)
Definition stepChanged (p : Props) (tab : Tab) : bool :=
  match committed tab with
  | None => true
  | Some q => negb (SimState.step (simState q) =? SimState.step (simState p))
  end.

(** Dependency [metrics] differs from the last commit (object identity). *)
Definition metricsChanged (p : Props) (tab : Tab) : bool :=
  match committed tab with
  | None => true
  | Some q => negb (Nat.eqb (metricsId q) (metricsId p))
  end.

(** One render with props [p] followed by its effects, in source order:
    the tracking effect (lines 341-361, deps [simState.step, metrics]),
    then the reset effect (lines 364-368, deps [simState.step]). *)
Definition render (tab : Tab) (p : Props) : Tab :=
  let h := history tab in
  let h :=
    if stepChanged p tab || metricsChanged p tab then
      if 0 <? SimState.step (simState p) then appendEntry p h else h
    else h in
  let h :=
    if stepChanged p tab then
      if SimState.step (simState p) =? 0 then [] else h
    else h in
  {| history := h; committed := Some p |}.

Definition renderAll (ps : list Props) (tab : Tab) : Tab :=
  fold_left render ps tab.

(** States of a mounted tab: the mount render, then any re-renders. *)
Inductive mounted : Tab -> Prop :=
| mounted_first p : mounted (render unmounted p)
| mounted_next tab p : mounted tab -> mounted (render tab p).

(** The window is consistent with the last committed step: it is empty
    exactly when that step is 0, and never longer than the cap. *)
Definition windowOk (tab : Tab) : Prop :=
  match committed tab with
  | None => history tab = []
  | Some q =>
      (SimState.step (simState q) = 0 <-> history tab = [])
      /\ (length (history tab) <= MAX_HISTORY)%nat
  end.

(** ** Series handed to the charts (lines 371-375) *)

Definition mempoolData    (h : list HistoryEntry) := map mempool h.
Definition feeData        (h : list HistoryEntry) := map fee h.
Definition blocksData     (h : list HistoryEntry) := map blocks h.
Definition hashrateData   (h : list HistoryEntry) := map hashrate h.
Definition difficultyData (h : list HistoryEntry) := map difficulty h.

(** ** MiniChart (lines 33-179) *)

(** What the chart shows.  Pixel geometry, which depends on the measured
    width of the DOM node, is left out: heights are kept as fractions of
    the plot height. *)
Inductive ChartView :=
| ChartPlaceholder (message : string)
| ChartPlot (minVal maxVal range : float) (heights : list float)
            (currentVal : float) (points : nat)
| ChartTypeError.            (* [currentVal.toFixed] on undefined *)

Definition MiniChart (data : list JsNumber) : ChartView :=
  match data with
  | [] => ChartPlaceholder "No data yet — run simulation"
  | d0 :: _ =>
      let minVal := mathMin data in
      let maxVal := mathMax data in
      let range := orElse (maxVal - minVal)%float 1%float in
      let heights :=
        map (fun val => ((toNumber val - minVal) / range)%float) data in
      match last data with
      | Some (Some currentVal) =>
          ChartPlot minVal maxVal range heights currentVal (length data)
      | _ => ChartTypeError
      end
  end.

(** ** CorrelationChart (lines 210-271) *)

Inductive CorrelationView :=
| CorrelationPlaceholder (message : string)
| CorrelationPlot (norm1 norm2 : list float).

Definition normalize (arr : list JsNumber) : list float :=
  let min := mathMin arr in
  let max := mathMax arr in
  let range := orElse (max - min)%float 1%float in
  map (fun v => ((toNumber v - min) / range)%float) arr.

(** Both series are arrays, so of [!data1 || !data2 || data1.length < 2]
    only the length test can hold. *)
Definition CorrelationChart (data1 data2 : list JsNumber) : CorrelationView :=
  if (length data1 <? 2)%nat
  then CorrelationPlaceholder "Need more data for correlation"
  else CorrelationPlot (normalize data1) (normalize data2).

(** ** StatsSummary (lines 277-313) *)

Record Trend := mkTrend {
  isPositive : bool;         (* arrow up, green; otherwise down, red *)
  magnitude  : float;        (* Math.abs(value), shown with one decimal *)
  unit       : string;
}.

Definition TrendIndicator (value : float) (unit : string) : Trend :=
  mkTrend (PrimFloat.ltb 0 value) (PrimFloat.abs value) unit.

Record Stats := mkStats {
  mempoolTrend   : Trend;
  feeTrend       : Trend;
  hashrateChange : Trend;
  dataPoints     : nat;
}.

(** [None] is React's [null]: nothing is rendered. *)
Definition StatsSummary (history : list HistoryEntry) : option Stats :=
  match history, last history with
  | first :: _, Some latest =>
      let mempoolTrend :=
        (toNumber (mempool latest) - toNumber (mempool first))%float in
      let feeTrend :=
        (toNumber (fee latest) - toNumber (fee first))%float in
      let hashrateTrend :=
        ((toNumber (hashrate latest) - toNumber (hashrate first))
           / toNumber (hashrate first) * 100)%float in
      Some {| mempoolTrend := TrendIndicator mempoolTrend " txs";
              feeTrend := TrendIndicator feeTrend " sat/vB";
              hashrateChange := TrendIndicator hashrateTrend "%";
              dataPoints := length history |}
  | _, _ => None
  end.

(** ** What the tab shows for a given window (lines 377-458) *)

Record View := mkView {
  summary        : option Stats;
  mempoolChart   : ChartView;
  feeChart       : ChartView;
  blocksChart    : ChartView;
  hashrateChart  : ChartView;
  correlation    : CorrelationView;
}.

Definition view (h : list HistoryEntry) : View :=
  {| summary := StatsSummary h;
     mempoolChart := MiniChart (mempoolData h);
     feeChart := MiniChart (feeData h);
     blocksChart := MiniChart (blocksData h);
     hashrateChart := MiniChart (hashrateData h);
     correlation := CorrelationChart (hashrateData h) (difficultyData h) |}.

End AnalysisTab.

(** The props [App] passes down to the tab from the hook's state. *)
Definition analysisProps (h : useSimulation.Hook) : AnalysisTab.Props :=
  {| AnalysisTab.simState := useSimulation.simState h;
     AnalysisTab.metrics := useSimulation.metrics h;
     AnalysisTab.metricsId := useSimulation.metricsId h |}.

(* ===================================================================== *)
(** * App.jsx: the scenario hypothesis bar *)
(* ===================================================================== *)

Module App.

Record Scenario := mkScenario {
  id         : string;
  name       : string;
  hypothesis : option string;      (* nullable text *)
  params     : Params;
}.

(** JS truthiness of a nullable string. *)
Definition truthy (s : option string) : bool :=
  match s with
  | Some s => negb (String.eqb s "")
  | None => false
  end.

Record HypothesisBar := mkBar {
  heading : string;                (* "<name>:" in the accent colour *)
  text    : string;
}.

(** Lines 1215-1230: [currentScenario.id !== 'baseline' &&
    currentScenario.hypothesis && (<div>...</div>)]. *)
Definition hypothesisBar (currentScenario : Scenario) : option HypothesisBar :=
  if negb (String.eqb (id currentScenario) "baseline")
     && truthy (hypothesis currentScenario)
  then Some {| heading := name currentScenario ++ ":";
               text := nullish (hypothesis currentScenario) "" |}
  else None.

End App.

(* ===================================================================== *)
(** * App.jsx: header controls, tabs, export names *)
(* ===================================================================== *)

Module Header.

(** The run/stop button (line 663): [onClick={simState.running ? onStop :
    onRun}], where [onStop] and [onRun] are the hook's [stop] and [run]. *)
Definition runStopClick (h : useSimulation.Hook) : useSimulation.Hook :=
  if SimState.running (useSimulation.simState h)
  then useSimulation.stop h
  else useSimulation.run h.

(** Its title (line 665): [simState.running ? 'Stop' : 'Run']. *)
Definition runStopTitle (simState : SimState.t) : string :=
  if SimState.running simState then "Stop" else "Run".

(** The scenario selector (lines 622-643), drawn under
    [scenarios.length > 0 && ...]: a select whose value is the active
    scenario's id, whose title (the hover tooltip) is
    [currentScenario.hypothesis || 'Select a scenario'], and which lists
    one option per scenario. *)
Record Selector := mkSelector {
  value   : string;
  title   : string;
  options : list (string * string);        (* (value, shown name) *)
}.

Definition scenarioSelector (scenarios : list App.Scenario)
    (currentScenario : App.Scenario) : option Selector :=
  if (0 <? length scenarios)%nat then
    Some {| value := App.id currentScenario;
            title := if App.truthy (App.hypothesis currentScenario)
                     then nullish (App.hypothesis currentScenario) ""
                     else "Select a scenario";
            options := map (fun sc => (App.id sc, App.name sc)) scenarios |}
  else None.

End Header.

Module MainContent.

Inductive Content := ShowNetwork | ShowSubsystems | ShowAnalysis | ShowAbout.

(** TabBar (lines 905-937): the tabs offered, in order. *)
Definition tabs : list string := ["Network"; "Subsystems"; "Analysis"; "About"].

(** MainContent (lines 939-960): four children, each rendered under
    [activeTab === '<name>' && ...], in source order. *)
Definition MainContent (activeTab : string) : list Content :=
  ((if String.eqb activeTab "Network" then [ShowNetwork] else [])
   ++ (if String.eqb activeTab "Subsystems" then [ShowSubsystems] else [])
   ++ (if String.eqb activeTab "Analysis" then [ShowAnalysis] else [])
   ++ (if String.eqb activeTab "About" then [ShowAbout] else []))%list.

Definition showsAnalysis (contents : list Content) : bool :=
  existsb (fun c => match c with ShowAnalysis => true | _ => false end)
          contents.

(** One render of the app as seen by the analysis tab: while the tab is
    among the children it renders with the props passed down; when it is
    not, React unmounts it and its state is gone. *)
Definition renderAnalysis (activeTab : string) (p : AnalysisTab.Props)
    (tab : AnalysisTab.Tab) : AnalysisTab.Tab :=
  if showsAnalysis (MainContent activeTab)
  then AnalysisTab.render tab p
  else AnalysisTab.unmounted.

End MainContent.

Module Sidebar.




End Sidebar.

(* ===================================================================== *)
(** * components/NetworkTab.jsx: which flows are drawn active *)
(* ===================================================================== *)

Module NetworkTab.

Record Flow := mkFlow {
  id    : string;
  from  : string;
  to    : string;
  label : string;
  type  : string;
}.

(** Lines 34-43. *)
Definition FLOWS : list Flow :=
  [ mkFlow "F0.3" "Validating" "Mining" "Mempool Txs" "Resource";
    mkFlow "F0.8" "Mining" "Protocol" "Mined Blocks" "Product";
    mkFlow "F0.6" "Development" "Protocol" "Protocol Updates" "Resource";
    mkFlow "F0.2" "Protocol" "Development" "Technical Feedback" "Resource";
    mkFlow "F0.7" "Protocol" "Mining" "Consensus Rules" "Resource";
    mkFlow "F0.9" "Protocol" "Validating" "Chain State" "Resource";
    mkFlow "F0.10" "Validating" "Protocol" "Validation Results" "Resource";
    mkFlow "F0.11" "Mining" "Validating" "Block Announcements" "Product" ].

(** [simState?.running || false] (line 391). *)
Definition isSimRunning (simState : option SimState.t) : bool :=
  match simState with
  | Some s => SimState.running s
  | None => false
  end.

(** A node's click handler (line 452):
    [setSelectedNode(selectedNode === name ? null : name)]. *)
Definition nodeClick (name : string) (selectedNode : option string)
  : option string :=
  match selectedNode with
  | Some s => if String.eqb s name then None else Some name
  | None => Some name
  end.

(** [isActive] of a flow arrow (line 433): [isSimRunning && (!selectedNode
    || flow.from === selectedNode || flow.to === selectedNode)]. *)
Definition flowActive (running : bool) (selectedNode : option string)
    (flow : Flow) : bool :=
  running
  && (negb (App.truthy selectedNode)
      || match selectedNode with
         | Some s => String.eqb (from flow) s || String.eqb (to flow) s
         | None => false
         end).

(** Lines 26-31: node centres, in percent of the container. *)
Definition NODE_POSITIONS : gmap string (N * N) :=
  <["Mining" := (75, 25)]>
  (<["Validating" := (25, 50)]>
  (<["Development" := (50, 85)]>
  (<["Protocol" := (75, 60)]> ∅))).

(** The fetched structure descriptor; [None] until it has loaded. *)
Record Subsystem := mkSubsystem {
  sub_name  : string;
  archetype : string;
}.

Record BertStructure := mkBert { subsystems : list Subsystem }.

(** The measured container, [{ width: 0, height: 0 }] until measured. *)
Record ContainerSize := mkSize { width : N; height : N }.

(** An arrow that is drawn, with the [isActive] it was given.  The pixel
    geometry of the line is left out. *)
Record Arrow := mkArrow {
  arrowFlow : Flow;
  isActive  : bool;
}.

(** FlowArrow (lines 49-133): nothing is drawn under
    [!fromPos || !toPos || !containerSize.width]. *)
Definition FlowArrow (flow : Flow) (isActive : bool)
    (containerSize : ContainerSize) : option Arrow :=
  match NODE_POSITIONS !! from flow, NODE_POSITIONS !! to flow with
  | Some _, Some _ =>
      if width containerSize =? 0 then None
      else Some (mkArrow flow isActive)
  | _, _ => None
  end.

(** The arrows NetworkTab draws (lines 374-436): none while
    [bertStructure] is missing (the early return shows a loading text),
    otherwise one FlowArrow per flow, in order. *)
Definition arrows (bertStructure : option BertStructure)
    (simState : option SimState.t) (selectedNode : option string)
    (containerSize : ContainerSize) : list Arrow :=
  match bertStructure with
  | None => []
  | Some _ =>
      omap (fun flow =>
              FlowArrow flow
                (flowActive (isSimRunning simState) selectedNode flow)
                containerSize)
           FLOWS
  end.

(** The flows drawn as active. *)
Definition activeFlows (bertStructure : option BertStructure)
    (simState : option SimState.t) (selectedNode : option string)
    (containerSize : ContainerSize) : list Flow :=
  map arrowFlow
      (List.filter isActive
         (arrows bertStructure simState selectedNode containerSize)).

(** The two counts FlowStats prints for the selected node (line 328);
    the panel is drawn once [bertStructure] has loaded. *)
Definition outgoing (selectedNode : string) : nat :=
  length (List.filter (fun f => String.eqb (from f) selectedNode) FLOWS).

Definition incoming (selectedNode : string) : nat :=
  length (List.filter (fun f => String.eqb (to f) selectedNode) FLOWS).

End NetworkTab.

(* ===================================================================== *)
(** * The hook and the analysis tab together *)
(* ===================================================================== *)

(** Tabs all of whose renders were given props taken from states the hook
    can reach, as [App] does. *)
Inductive fedByHook : AnalysisTab.Tab -> Prop :=
| fedByHook_first h :
    useSimulation.reachable h ->
    fedByHook (AnalysisTab.render AnalysisTab.unmounted (analysisProps h))
| fedByHook_next tab h :
    fedByHook tab ->
    useSimulation.reachable h ->
    fedByHook (AnalysisTab.render tab (analysisProps h)).

(** Every metric the hook starts with is still there. *)
Definition keepsDefaultKeys (m : Metrics) : Prop :=
  forall k, is_Some (useSimulation.defaultMetrics !! k) -> is_Some (m !! k).

(** An entry all of whose metric fields were found. *)
Definition entryComplete (e : AnalysisTab.HistoryEntry) : Prop :=
  is_Some (AnalysisTab.mempool e)
  /\ is_Some (AnalysisTab.fee e)
  /\ is_Some (AnalysisTab.blocks e)
  /\ is_Some (AnalysisTab.hashrate e)
  /\ is_Some (AnalysisTab.difficulty e).

(* ===================================================================== *)
(** * Sample inputs *)
(* ===================================================================== *)

(** Props of the analysis tab showing step [n] with the default metrics
    held in the [i]-th metrics object. *)
Definition propsAt (n : N) (i : nat) : AnalysisTab.Props :=
  AnalysisTab.mkProps (SimState.mk n true) useSimulation.defaultMetrics i.

(** Steps 1, 2, ..., [k] observed one after the other. *)
Definition countingUp (k : nat) : list AnalysisTab.Props :=
  map (fun i => propsAt (N.of_nat i) i) (seq 1 k).

(** A snapshot that carries nothing but a step. *)
Definition stepOnly (n : N) : Snapshot := mkSnapshot (Some n) None None.

(** Two floats with different images under a boolean test are different. *)
Ltac float_discr test :=
  let H := fresh in
  intros H; apply (f_equal test) in H; vm_compute in H; discriminate H.

(* ===================================================================== *)
(** * Properties of the snapshot merge (updateFromState) *)
(* ===================================================================== *)

Section SnapshotMerge.
Import useSimulation.

Lemma updateFromState_step (s : Snapshot) (h : Hook) :
  displayedStep (updateFromState (Some s) h)
  = nullish (snap_step s) (displayedStep h).
Proof.
  unfold updateFromState, displayedStep.
  destruct (snap_metrics s); reflexivity.
Qed.

Lemma updateFromState_running (s : option Snapshot) (h : Hook) :
  SimState.running (simState (updateFromState s h))
  = SimState.running (simState h).
Proof.
  destruct s as [s|]; [|reflexivity].
  unfold updateFromState. destruct (snap_metrics s); reflexivity.
Qed.

Lemma spread_lookup {V} (base over : gmap string V) (k : string) :
  spread base over !! k
  = match over !! k with Some v => Some v | None => base !! k end.
Proof.
  unfold spread. rewrite lookup_union.
  destruct (over !! k), (base !! k); reflexivity.
Qed.

Lemma updateFromState_metrics (s : Snapshot) (h : Hook) (k : string) :
  metrics (updateFromState (Some s) h) !! k
  = match snap_metrics s with
    | None => metrics h !! k
    | Some m =>
        match orEmpty (snap_activity s) !! k with
        | Some v => Some v
        | None =>
            match m !! k with
            | Some v => Some v
            | None => metrics h !! k
            end
        end
    end.
Proof.
  unfold updateFromState.
  destruct (snap_metrics s) as [m|]; simpl; [|reflexivity].
  rewrite !spread_lookup. reflexivity.
Qed.

Lemma displayedSteps_all_present (ds : list Snapshot) (h : Hook) :
  Forall (fun s => is_Some (snap_step s)) ds ->
  map Some (displayedSteps ds h) = map snap_step ds.
Proof.
  intros Hall. revert h.
  induction Hall as [|s ds [n Hn] _ IH]; intros h;
    cbn [displayedSteps map]; [reflexivity|].
  rewrite updateFromState_step, Hn, IH. reflexivity.
Qed.

(** C1 (as the code has it).  updateFromState compares no steps: when every
    delivered snapshot carries a step, the displayed step after each delivery
    is that snapshot's step, so the displayed sequence is the delivered
    sequence, lower steps included. *)
Theorem displayed_steps_follow_deliveries
    (ds : list Snapshot) (steps : list N) (h : Hook) :
  map snap_step ds = map Some steps ->
  displayedSteps ds h = steps.
Proof.
  intros Hsteps.
  assert (Hall : Forall (fun s => is_Some (snap_step s)) ds).
  { clear h. revert steps Hsteps.
    induction ds as [|s ds IH]; intros [|n steps] Heq; simpl in Heq;
      try discriminate; constructor.
    - injection Heq as Hs _. rewrite Hs. eexists; reflexivity.
    - injection Heq as _ Hrest. exact (IH _ Hrest). }
  pose proof (displayedSteps_all_present ds h Hall) as Hd.
  rewrite Hsteps in Hd.
  revert Hd. generalize (displayedSteps ds h). clear.
  induction steps as [|n steps IH]; intros [|m l] Heq; simpl in Heq;
    try discriminate; [reflexivity|].
  injection Heq as -> Hrest. f_equal. exact (IH _ Hrest).
Qed.

Lemma displayed_steps_follow_deliveries_witness :
  displayedSteps [stepOnly 5; stepOnly 3; stepOnly 6] initial = [5; 3; 6].
Proof.
  apply (displayed_steps_follow_deliveries
           [stepOnly 5; stepOnly 3; stepOnly 6] [5; 3; 6] initial).
  reflexivity.
Defined.

(** C1 fails on the code: delivering steps 5, 3, 6 displays 5, 3, 6 and not
    5, 6; the snapshot with step 3 arrives while 5 is displayed, is not
    discarded, and lowers the displayed step. *)
Lemma stale_snapshot_is_applied :
  let h5 := updateFromState (Some (stepOnly 5)) initial in
  let h3 := updateFromState (Some (stepOnly 3)) h5 in
  displayedSteps [stepOnly 5; stepOnly 3; stepOnly 6] initial = [5; 3; 6]
  /\ displayedSteps [stepOnly 5; stepOnly 3; stepOnly 6] initial <> [5; 6]
  /\ displayedStep h5 = 5
  /\ displayedStep h3 = 3
  /\ h3 <> h5.
Proof.
  cbv zeta. repeat split; try reflexivity.
  - discriminate.
  - intros Heq. apply (f_equal displayedStep) in Heq. discriminate Heq.
Qed.

(** C2 (as the code has it).  The step is replaced when the snapshot has one
    and kept otherwise.  Metrics change only when the snapshot has a metrics
    bundle; then every key takes its value from the activity bundle if it
    is there, else from the metrics bundle if it is there, else keeps its
    prior value. *)
Theorem updateFromState_merge (s : Snapshot) (h : Hook) (k : string) :
  displayedStep (updateFromState (Some s) h)
  = match snap_step s with Some n => n | None => displayedStep h end
  /\ metrics (updateFromState (Some s) h) !! k
     = match snap_metrics s with
       | None => metrics h !! k
       | Some m =>
           match orEmpty (snap_activity s) !! k with
           | Some v => Some v
           | None =>
               match m !! k with
               | Some v => Some v
               | None => metrics h !! k
               end
           end
       end.
Proof.
  split.
  - apply updateFromState_step.
  - apply updateFromState_metrics.
Qed.

(** C2 fails on the code: a key that the metrics bundle does not carry is
    overwritten from the activity bundle, and a key carried by both takes
    the activity value, not the one of the metrics bundle. *)
Lemma activity_overrides_metrics :
  let s := mkSnapshot (Some 1)
             (Some (<["avg_fee" := 2%float]> (∅ : Metrics)))
             (Some (<["mempool_size" := 7%float]>
                      (<["avg_fee" := 3%float]> (∅ : Metrics)))) in
  let h := updateFromState (Some s) initial in
  (exists m, snap_metrics s = Some m
             /\ m !! "mempool_size" = None
             /\ m !! "avg_fee" = Some 2%float)
  /\ metrics initial !! "mempool_size" = Some 0%float
  /\ metrics h !! "mempool_size" = Some 7%float
  /\ metrics h !! "mempool_size" <> metrics initial !! "mempool_size"
  /\ metrics h !! "avg_fee" = Some 3%float
  /\ metrics h !! "avg_fee" <> Some 2%float.
Proof.
  cbv zeta. split; [eexists; repeat split; reflexivity|].
  repeat split; try reflexivity.
  - float_discr (fun o : option float =>
      match o with Some x => PrimFloat.eqb x 0 | None => false end).
  - float_discr (fun o : option float =>
      match o with Some x => PrimFloat.eqb x 2 | None => false end).
Qed.

End SnapshotMerge.

(* ===================================================================== *)
(** * The REST fallback path *)
(* ===================================================================== *)

Section Fallback.
Import useSimulation.

Lemma shown_perform (e : Effect) (h : Hook) : shown (perform e h) = shown h.
Proof. reflexivity. Qed.

Lemma shown_setError (e : option string) (h : Hook) :
  shown (setError e h) = shown h.
Proof. reflexivity. Qed.

Lemma step_fallback (h : Hook) :
  socketLive h = false ->
  step h = perform PostStep h.
Proof. unfold step. intros ->. reflexivity. Qed.

Lemma shown_reset (params : Params) (h : Hook) :
  shown (reset params h) = shown h.
Proof.
  unfold reset.
  destruct (runningRef h); simpl;
    destruct (intervalRef h); simpl;
    destruct (socketLive h); reflexivity.
Qed.

Lemma reset_fallback_effect (params : Params) (h : Hook) :
  socketLive h = false ->
  last (effects (reset params h)) = Some (PostReset params).
Proof.
  unfold reset. intros Hs.
  destruct (runningRef h); simpl;
    destruct (intervalRef h); simpl; rewrite Hs; simpl;
    apply last_snoc.
Qed.

Lemma settled_same (r : FetchResult) (h : Hook) :
  resetSettled r h = stepSettled r h.
Proof. reflexivity. Qed.

Lemma stepSettled_not_ok (status : string) (state : option Snapshot) (h : Hook) :
  status <> "ok" -> stepSettled (Envelope status state) h = h.
Proof.
  intros Hne. simpl.
  destruct (String.eqb_spec status "ok"); [contradiction|reflexivity].
Qed.

Lemma stepSettled_cases (r : FetchResult) (h : Hook) :
  (forall status state,
      r = Envelope status state -> status <> "ok" ->
      shown (stepSettled r h) = shown h)
  /\ (forall message,
        r = Threw message ->
        shown (stepSettled r h) = shown h
        /\ error (stepSettled r h) = Some message)
  /\ (forall state,
        r = Envelope "ok" state ->
        stepSettled r h = updateFromState state h)
  /\ (shown (stepSettled r h) <> shown h ->
      exists state, r = Envelope "ok" (Some state)).
Proof.
  repeat split.
  - intros status state -> Hne.
    rewrite (stepSettled_not_ok status state h Hne). reflexivity.
  - subst r. reflexivity.
  - subst r. reflexivity.
  - intros state ->. reflexivity.
  - destruct r as [message|status state]; simpl.
    + intros Hne. contradiction Hne. reflexivity.
    + destruct (String.eqb_spec status "ok") as [->|Hne].
      * destruct state as [state|]; [eauto|].
        intros Hneq. contradiction Hneq. reflexivity.
      * intros Hneq. contradiction Hneq. reflexivity.
Qed.

(** C6 (as the code has it).  On the REST path, issuing a step or a reset
    leaves the shown step and metrics alone.  When the call settles: under
    a status other than "ok", and when the call throws, step and metrics
    stay as they are; when the call throws, the error message is set to the
    thrown one; the snapshot is applied only under status "ok". *)
Theorem fallback_shows_only_confirmed_snapshots
    (params : Params) (r : FetchResult) (h : Hook)
    (Hrest : socketLive h = false) :
  (shown (step h) = shown h /\ performedSince h (step h) = [PostStep])
  /\ (shown (reset params h) = shown h
      /\ last (effects (reset params h)) = Some (PostReset params))
  /\ Forall (fun settled : FetchResult -> Hook -> Hook =>
       (forall status state,
           r = Envelope status state -> status <> "ok" ->
           shown (settled r h) = shown h)
       /\ (forall message,
             r = Threw message ->
             shown (settled r h) = shown h
             /\ error (settled r h) = Some message)
       /\ (forall state,
             r = Envelope "ok" state ->
             settled r h = updateFromState state h)
       /\ (shown (settled r h) <> shown h ->
           exists state, r = Envelope "ok" (Some state)))
     [stepSettled; resetSettled].
Proof.
  split; [|split].
  - rewrite (step_fallback h Hrest). split; [reflexivity|].
    unfold performedSince, perform; simpl.
    rewrite drop_app_length. reflexivity.
  - split; [apply shown_reset | apply (reset_fallback_effect params h Hrest)].
  - constructor; [apply stepSettled_cases|].
    constructor; [apply stepSettled_cases|].
    constructor.
Qed.

Lemma fallback_shows_only_confirmed_snapshots_witness :
  shown (stepSettled (Envelope "error" (Some (stepOnly 9))) initial)
  = shown initial.
Proof.
  pose proof (fallback_shows_only_confirmed_snapshots
                ∅ (Envelope "error" (Some (stepOnly 9))) initial eq_refl)
    as (_ & _ & Hsettled).
  apply Forall_cons in Hsettled as [(Hnot_ok & _) _].
  apply (Hnot_ok "error" (Some (stepOnly 9)) eq_refl).
  discriminate.
Defined.

(** C6 fails on the code: after an envelope with status "error" no error
    message is set, for the step call and for the reset call alike. *)
Lemma rejected_envelope_sets_no_message :
  let r := Envelope "error" (Some (stepOnly 9)) in
  socketLive initial = false
  /\ error (stepSettled r (step initial)) = None
  /\ error (resetSettled r (reset ∅ initial)) = None.
Proof. cbv zeta. repeat split; reflexivity. Qed.

End Fallback.

(* ===================================================================== *)
(** * The continuous run driver *)
(* ===================================================================== *)

Section Driver.
Import useSimulation.

Lemma filter_only_timer (id : positive) :
  filter (fun t => t <> id) [id] = [].
Proof.
  rewrite filter_cons_False; [reflexivity|].
  intros Hne. apply Hne. reflexivity.
Qed.

Lemma driverOk_initial : driverOk initial.
Proof. split; [reflexivity|]. simpl. split; reflexivity. Qed.

Lemma driverOk_updateFromState (state : option Snapshot) (h : Hook) :
  driverOk h -> driverOk (updateFromState state h).
Proof.
  destruct state as [s|]; [|trivial].
  unfold driverOk, updateFromState.
  destruct (snap_metrics s); simpl; trivial.
Qed.

Lemma driverOk_settled (r : FetchResult) (h : Hook) :
  driverOk h -> driverOk (stepSettled r h).
Proof.
  destruct r as [message|status state]; simpl; [trivial|].
  destruct (String.eqb status "ok"); [|trivial].
  apply driverOk_updateFromState.
Qed.

Lemma driverOk_stop (h : Hook) : driverOk h -> driverOk (stop h).
Proof.
  destruct h as [c ss m mi er sl rr [id|] ts nt ef];
    unfold driverOk, stop; simpl; intros [Hrun [Hr ->]].
  - rewrite filter_only_timer. auto.
  - auto.
Qed.

Lemma driverOk_run (h : Hook) : driverOk h -> driverOk (run h).
Proof.
  destruct h as [c ss m mi er sl [|] [id|] ts nt ef];
    unfold driverOk, run; simpl; intros [Hrun [Hr ->]];
    try discriminate; auto.
Qed.

Lemma driverOk_step (h : Hook) : driverOk h -> driverOk (step h).
Proof. unfold driverOk, step. destruct (socketLive h); simpl; trivial. Qed.

Lemma driverOk_reset (params : Params) (h : Hook) :
  driverOk h -> driverOk (reset params h).
Proof.
  destruct h as [c ss m mi er [|] [|] [id|] ts nt ef];
    unfold driverOk, reset; simpl; intros [Hrun [Hr ->]];
    try discriminate; try rewrite filter_only_timer; auto.
Qed.

Lemma driverOk_intervalFired (id : positive) (h : Hook) :
  driverOk h -> driverOk (intervalFired id h).
Proof.
  unfold intervalFired. intros Hok.
  destruct (bool_decide _); [|trivial].
  destruct (runningRef h); [|trivial].
  apply driverOk_step, Hok.
Qed.

Lemma driverOk_handle (e : Event) (h : Hook) :
  driverOk h -> driverOk (handle h e).
Proof.
  destruct e; simpl.
  - apply driverOk_run.
  - apply driverOk_stop.
  - apply driverOk_step.
  - apply driverOk_reset.
  - trivial.
  - trivial.
  - trivial.
  - trivial.
  - apply driverOk_updateFromState.
  - apply driverOk_settled.
  - apply driverOk_settled.
  - apply driverOk_intervalFired.
Qed.

Lemma reachable_driverOk (h : Hook) : reachable h -> driverOk h.
Proof.
  induction 1 as [|h e _ IH]; [apply driverOk_initial|].
  apply driverOk_handle, IH.
Qed.

(** ** With no live timer nothing is scheduled *)

Lemma timers_updateFromState (state : option Snapshot) (h : Hook) :
  timers (updateFromState state h) = timers h.
Proof.
  destruct state as [s|]; [|reflexivity].
  unfold updateFromState. destruct (snap_metrics s); reflexivity.
Qed.

Lemma timers_settled (r : FetchResult) (h : Hook) :
  timers (stepSettled r h) = timers h.
Proof.
  destruct r as [message|status state]; simpl; [reflexivity|].
  destruct (String.eqb status "ok"); [apply timers_updateFromState|reflexivity].
Qed.

Lemma timers_step (h : Hook) : timers (step h) = timers h.
Proof. unfold step. destruct (socketLive h); reflexivity. Qed.

Lemma timers_intervalFired (id : positive) (h : Hook) :
  timers (intervalFired id h) = timers h.
Proof.
  unfold intervalFired.
  destruct (bool_decide _); [|reflexivity].
  destruct (runningRef h); [apply timers_step|reflexivity].
Qed.

Lemma timers_handle_idle (e : Event) (h : Hook) :
  e <> Run -> timers h = [] -> timers (handle h e) = [].
Proof.
  intros Hne Hidle. destruct e; simpl.
  - contradiction Hne; reflexivity.
  - destruct h as [c ss m mi er sl rr [id|] ts nt ef]; simpl in *;
      rewrite Hidle; reflexivity.
  - rewrite timers_step. exact Hidle.
  - destruct h as [c ss m mi er [|] [|] [id|] ts nt ef]; simpl in *;
      rewrite Hidle; reflexivity.
  - exact Hidle.
  - exact Hidle.
  - exact Hidle.
  - exact Hidle.
  - unfold onStateUpdate. rewrite timers_updateFromState. exact Hidle.
  - rewrite timers_settled. exact Hidle.
  - unfold resetSettled. fold (stepSettled r h).
    rewrite timers_settled. exact Hidle.
  - rewrite timers_intervalFired. exact Hidle.
Qed.

Lemma timers_handleAll_idle (es : list Event) (h : Hook) :
  Forall (fun e => e <> Run) es ->
  timers h = [] ->
  timers (handleAll es h) = [].
Proof.
  intros Hes. revert h.
  induction Hes as [|e es He _ IH]; intros h Hidle; [exact Hidle|].
  apply IH, timers_handle_idle; assumption.
Qed.

Lemma intervalFired_idle (id : positive) (h : Hook) :
  timers h = [] -> intervalFired id h = h.
Proof.
  unfold intervalFired. intros ->.
  rewrite bool_decide_eq_false_2; [reflexivity|].
  apply not_elem_of_nil.
Qed.

Lemma stepsPerInterval_idle (h : Hook) :
  timers h = [] -> stepsPerInterval h = 0%nat.
Proof.
  unfold stepsPerInterval, intervalElapsed, performedSince. intros ->.
  simpl. rewrite drop_all. reflexivity.
Qed.

Lemma stepsPerInterval_running (h : Hook) :
  driverOk h -> runningRef h = true -> stepsPerInterval h = 1%nat.
Proof.
  unfold driverOk, stepsPerInterval, intervalElapsed, performedSince.
  intros [_ Hint] Hrun.
  destruct (intervalRef h) as [id|]; [|destruct Hint; congruence].
  destruct Hint as [_ Hts]. rewrite Hts. simpl.
  unfold intervalFired. rewrite Hts.
  rewrite bool_decide_eq_true_2 by apply list_elem_of_here.
  rewrite Hrun. unfold step.
  destruct (socketLive h); simpl; rewrite drop_app_length; reflexivity.
Qed.

Lemma run_running (h : Hook) : runningRef (run h) = true.
Proof.
  unfold run. destruct (runningRef h) eqn:Hr; [exact Hr|reflexivity].
Qed.

Lemma run_when_running (h : Hook) : runningRef h = true -> run h = h.
Proof. unfold run. intros ->. reflexivity. Qed.

Lemma running_one_timer (h : Hook) :
  driverOk h -> runningRef h = true -> exists id, timers h = [id].
Proof.
  intros [_ Hint] Hrun.
  destruct (intervalRef h) as [id|]; destruct Hint as [Hr Hts].
  - eauto.
  - congruence.
Qed.

Lemma stopped_no_timer (h : Hook) :
  driverOk h -> runningRef h = false ->
  intervalRef h = None /\ timers h = [].
Proof.
  intros [_ Hint] Hrun.
  destruct (intervalRef h) as [id|]; destruct Hint as [Hr Hts].
  - congruence.
  - auto.
Qed.

(** C4.  In every state the hook can reach: if the running flag is set,
    run() changes nothing, one timer is live and one interval issues
    exactly one step intent; and calling run() twice in a row is the same
    as calling it once, leaving one timer and one step intent per
    interval. *)
Theorem run_twice_one_cadence (h : Hook) (Hreach : reachable h) :
  (runningRef h = true ->
     run h = h
     /\ length (timers h) = 1%nat
     /\ stepsPerInterval h = 1%nat)
  /\ run (run h) = run h
  /\ length (timers (run (run h))) = 1%nat
  /\ stepsPerInterval (run (run h)) = 1%nat.
Proof.
  pose proof (reachable_driverOk h Hreach) as Hok.
  assert (Hrunning :
    forall h', driverOk h' -> runningRef h' = true ->
      run h' = h' /\ length (timers h') = 1%nat
      /\ stepsPerInterval h' = 1%nat).
  { intros h' Hok' Hrun'. split; [apply run_when_running, Hrun'|].
    split; [|apply stepsPerInterval_running; assumption].
    destruct (running_one_timer h' Hok' Hrun') as [id ->]. reflexivity. }
  split; [apply Hrunning, Hok|].
  destruct (Hrunning (run h) (driverOk_run h Hok) (run_running h))
    as (Hsame & Hone & Hsteps).
  rewrite Hsame. auto.
Qed.

Lemma run_twice_one_cadence_witness :
  run (handle initial Run) = handle initial Run
  /\ stepsPerInterval (handle initial Run) = 1%nat.
Proof.
  destruct (run_twice_one_cadence (handle initial Run)
              (reachable_handle initial Run reachable_initial))
    as (Hrunning & _).
  destruct (Hrunning eq_refl) as (Hsame & _ & Hsteps).
  split; assumption.
Defined.

(** The count does tell one cadence from two: a state holding two live
    timers (which [run] never produces) would issue two intents. *)
Example two_timers_would_double :
  stepsPerInterval
    (mkHook false (SimState.mk 0 true) defaultMetrics 0 None false
            true (Some 2%positive) [1%positive; 2%positive] 3%positive [])
  = 2%nat.
Proof. reflexivity. Qed.

Lemma stop_stopped (h : Hook) :
  driverOk h ->
  runningRef (stop h) = false
  /\ SimState.running (simState (stop h)) = false
  /\ intervalRef (stop h) = None
  /\ timers (stop h) = [].
Proof.
  destruct h as [c ss m mi er sl rr [id|] ts nt ef];
    unfold driverOk, stop; simpl; intros [Hrun [Hr ->]];
    try rewrite filter_only_timer; auto.
Qed.

Lemma stop_when_stopped (h : Hook) :
  driverOk h -> runningRef h = false -> stop h = h.
Proof.
  destruct h as [c [n r] m mi er sl rr [id|] ts nt ef];
    unfold driverOk, stop; simpl; intros [Hrun [Hr ->]] Hstopped;
    subst; try discriminate; reflexivity.
Qed.

Lemma stop_effects (h : Hook) :
  performedSince h (stop h)
  = match intervalRef h with Some id => [ClearInterval id] | None => [] end.
Proof.
  destruct h as [c ss m mi er sl rr [id|] ts nt ef];
    unfold performedSince, stop; simpl.
  - rewrite drop_app_length. reflexivity.
  - rewrite drop_all. reflexivity.
Qed.

Lemma unmount_no_timer (h : Hook) : driverOk h -> timers (unmount h) = [].
Proof.
  destruct h as [c ss m mi er sl rr [id|] ts nt ef];
    unfold driverOk, unmount; simpl; intros [Hrun [Hr ->]];
    try rewrite filter_only_timer; reflexivity.
Qed.

(** C5.  In every state the hook can reach: stop() leaves the driver
    stopped with no live timer, having cleared the one [intervalRef] named,
    and changes nothing when the driver is already stopped; unmounting
    leaves no live timer either.  After stop() or unmount, whatever happens
    next short of a new run(), a timer coming due does nothing and an
    interval issues no step intent. *)
Theorem stop_and_unmount_cancel_timer (h : Hook) (Hreach : reachable h) :
  (runningRef (stop h) = false
   /\ SimState.running (simState (stop h)) = false
   /\ intervalRef (stop h) = None
   /\ timers (stop h) = []
   /\ performedSince h (stop h)
      = match intervalRef h with
        | Some id => [ClearInterval id]
        | None => []
        end)
  /\ (runningRef h = false -> stop h = h)
  /\ timers (unmount h) = []
  /\ forall (es : list Event) (id : positive),
       Forall (fun e => e <> Run) es ->
       Forall (fun after : Hook =>
                 intervalFired id (handleAll es after) = handleAll es after
                 /\ stepsPerInterval (handleAll es after) = 0%nat)
              [stop h; unmount h].
Proof.
  pose proof (reachable_driverOk h Hreach) as Hok.
  destruct (stop_stopped h Hok) as (Hr & Hs & Hi & Ht).
  pose proof (unmount_no_timer h Hok) as Hu.
  repeat split; try assumption.
  - apply stop_effects.
  - apply stop_when_stopped, Hok.
  - intros es id Hes.
    pose proof (timers_handleAll_idle es (stop h) Hes Ht) as Hstop.
    pose proof (timers_handleAll_idle es (unmount h) Hes Hu) as Hunm.
    constructor; [|constructor; [|constructor]];
      (split; [apply intervalFired_idle | apply stepsPerInterval_idle]);
      assumption.
Qed.

Lemma stop_and_unmount_cancel_timer_witness :
  timers (stop (handle initial Run)) = []
  /\ timers (unmount (handle initial Run)) = []
  /\ intervalFired 1
       (handleAll [Step; StateUpdate (Some (stepOnly 1))]
                  (stop (handle initial Run)))
     = handleAll [Step; StateUpdate (Some (stepOnly 1))]
                 (stop (handle initial Run)).
Proof.
  destruct (stop_and_unmount_cancel_timer (handle initial Run)
              (reachable_handle initial Run reachable_initial))
    as ((_ & _ & _ & Hstop & _) & _ & Hunmount & Hafter).
  split; [exact Hstop|]. split; [exact Hunmount|].
  assert (Hes : Forall (fun e => e <> Run)
                  [Step; StateUpdate (Some (stepOnly 1))]).
  { repeat constructor; discriminate. }
  specialize (Hafter _ 1%positive Hes).
  apply Forall_cons in Hafter as [[Hfired _] _].
  exact Hfired.
Defined.

Lemma reset_stopped (params : Params) (h : Hook) :
  driverOk h ->
  runningRef (reset params h) = false
  /\ SimState.running (simState (reset params h)) = false
  /\ intervalRef (reset params h) = None
  /\ timers (reset params h) = [].
Proof.
  destruct h as [c ss m mi er [|] [|] [id|] ts nt ef];
    unfold driverOk, reset; simpl; intros [Hrun [Hr ->]];
    try discriminate; try rewrite filter_only_timer; auto.
Qed.

Lemma reset_effects_running (params : Params) (h : Hook) :
  driverOk h -> runningRef h = true ->
  exists id, intervalRef h = Some id
    /\ timers h = [id]
    /\ performedSince h (reset params h)
       = [ClearInterval id; resetIntent params h].
Proof.
  destruct h as [c ss m mi er [|] [|] [id|] ts nt ef];
    unfold driverOk, reset, performedSince, resetIntent; simpl;
    intros [Hrun [Hr ->]] Hrunning; try discriminate;
    exists id; (split; [reflexivity|]); (split; [reflexivity|]);
    rewrite <- app_assoc, drop_app_length; reflexivity.
Qed.

Lemma reset_when_stopped (params : Params) (h : Hook) :
  runningRef h = false ->
  reset params h = perform (resetIntent params h) h.
Proof.
  unfold reset, resetIntent. intros ->.
  destruct (socketLive h); reflexivity.
Qed.

(** C10.  In every state the hook can reach, reset() leaves the driver
    stopped with no live timer.  If the driver was running, reset() first
    clears the timer [intervalRef] names and only then sends the reset
    intent; afterwards, whatever happens short of a new run(), a timer
    coming due does nothing and an interval issues no step intent.  If the
    driver was already stopped, reset() only sends the intent: every field
    of the state, the driver's included, is as before. *)
Theorem reset_stops_driver_first
    (params : Params) (h : Hook) (Hreach : reachable h) :
  (runningRef (reset params h) = false
   /\ SimState.running (simState (reset params h)) = false
   /\ intervalRef (reset params h) = None
   /\ timers (reset params h) = [])
  /\ (runningRef h = true ->
      exists id, intervalRef h = Some id
        /\ timers h = [id]
        /\ performedSince h (reset params h)
           = [ClearInterval id; resetIntent params h])
  /\ (runningRef h = false ->
      reset params h = perform (resetIntent params h) h)
  /\ forall (es : list Event) (id : positive),
       Forall (fun e => e <> Run) es ->
       intervalFired id (handleAll es (reset params h))
       = handleAll es (reset params h)
       /\ stepsPerInterval (handleAll es (reset params h)) = 0%nat.
Proof.
  pose proof (reachable_driverOk h Hreach) as Hok.
  pose proof (reset_stopped params h Hok) as Hstopped.
  split; [exact Hstopped|].
  split; [apply reset_effects_running, Hok|].
  split; [apply reset_when_stopped|].
  intros es id Hes.
  destruct Hstopped as (_ & _ & _ & Ht).
  pose proof (timers_handleAll_idle es (reset params h) Hes Ht) as Hidle.
  split; [apply intervalFired_idle | apply stepsPerInterval_idle];
    assumption.
Qed.

Lemma reset_stops_driver_first_witness :
  performedSince (handle initial Run) (reset ∅ (handle initial Run))
  = [ClearInterval 1; PostReset ∅]
  /\ timers (reset ∅ (handle initial Run)) = [].
Proof.
  destruct (reset_stops_driver_first ∅ (handle initial Run)
              (reachable_handle initial Run reachable_initial))
    as ((_ & _ & _ & Ht) & Hrunning & _).
  destruct (Hrunning eq_refl) as (id & Hid & _ & Heffects).
  injection Hid as <-.
  split; [exact Heffects | exact Ht].
Defined.

End Driver.

(* ===================================================================== *)
(** * The history window *)
(* ===================================================================== *)

Section History.
Import AnalysisTab.

Lemma sliceLast_short {A} (n : nat) (l : list A) :
  (length l <= n)%nat -> sliceLast n l = l.
Proof.
  unfold sliceLast. intros Hle.
  replace (length l - n)%nat with 0%nat by lia. reflexivity.
Qed.

Lemma sliceLast_length {A} (n : nat) (l : list A) :
  length (sliceLast n l) = Nat.min n (length l).
Proof. unfold sliceLast. rewrite length_drop. lia. Qed.

Lemma sliceLast_app {A} (n : nat) (l l' : list A) :
  sliceLast n (sliceLast n l ++ l') = sliceLast n (l ++ l').
Proof.
  unfold sliceLast.
  rewrite <- (drop_app_le l l' (length l - n)) by lia.
  rewrite drop_drop. f_equal.
  rewrite length_drop, !length_app. lia.
Qed.

Lemma appendEntry_sliceLast (p : Props) (prev : list HistoryEntry) :
  appendEntry p prev = sliceLast MAX_HISTORY (prev ++ [newEntry p]).
Proof.
  unfold appendEntry.
  destruct (Nat.ltb_spec MAX_HISTORY (length (prev ++ [newEntry p])))
    as [Hlt|Hle]; [reflexivity|].
  symmetry. apply sliceLast_short, Hle.
Qed.

Lemma appendEntry_length (p : Props) (prev : list HistoryEntry) :
  (0 < length (appendEntry p prev) <= MAX_HISTORY)%nat.
Proof.
  assert (Hcap : MAX_HISTORY = 100%nat) by reflexivity.
  rewrite appendEntry_sliceLast, sliceLast_length, length_app.
  cbn [length]. lia.
Qed.

Example window_after_105 :
  map step (history (renderAll (countingUp 105) (render unmounted (propsAt 0 0))))
  = map N.of_nat (seq 6 100).
Proof. vm_compute. reflexivity. Qed.

Lemma windowOk_unmounted : windowOk unmounted.
Proof. reflexivity. Qed.

Lemma stepChanged_false (p : Props) (tab : Tab) :
  stepChanged p tab = false ->
  exists q, committed tab = Some q
            /\ SimState.step (simState q) = SimState.step (simState p).
Proof.
  unfold stepChanged. destruct (committed tab) as [q|]; [|discriminate].
  intros Hsame. exists q. split; [reflexivity|].
  apply N.eqb_eq. apply negb_false_iff, Hsame.
Qed.

Lemma render_zero (tab : Tab) (p : Props) :
  SimState.step (simState p) = 0 ->
  history (render tab p) = if stepChanged p tab then [] else history tab.
Proof.
  unfold render. intros ->. cbn [history].
  destruct (stepChanged p tab), (metricsChanged p tab); reflexivity.
Qed.

Lemma render_nonzero (tab : Tab) (p : Props) :
  SimState.step (simState p) <> 0 ->
  history (render tab p)
  = if stepChanged p tab || metricsChanged p tab
    then appendEntry p (history tab)
    else history tab.
Proof.
  unfold render. intros Hnz. cbn [history].
  destruct (N.ltb_spec 0 (SimState.step (simState p))) as [_|Hle]; [|lia].
  destruct (N.eqb_spec (SimState.step (simState p)) 0) as [Hz|_];
    [contradiction|].
  destruct (stepChanged p tab); reflexivity.
Qed.

Lemma windowOk_render (tab : Tab) (p : Props) :
  windowOk tab -> windowOk (render tab p).
Proof.
  intros Hok.
  assert (Hcommitted : committed (render tab p) = Some p) by reflexivity.
  unfold windowOk. rewrite Hcommitted.
  destruct (N.eq_dec (SimState.step (simState p)) 0) as [Hz|Hnz].
  - rewrite (render_zero tab p Hz).
    destruct (stepChanged p tab) eqn:Hchanged.
    + split; [tauto|simpl; lia].
    + destruct (stepChanged_false p tab Hchanged) as (q & Hq & Hsame).
      unfold windowOk in Hok. rewrite Hq, Hsame in Hok. exact Hok.
  - rewrite (render_nonzero tab p Hnz).
    destruct (stepChanged p tab) eqn:Hchanged; cbn [orb].
    + pose proof (appendEntry_length p (history tab)) as Hlen.
      split; [|lia]. split; [contradiction|].
      intros Hempty. rewrite Hempty in Hlen. simpl in Hlen. lia.
    + destruct (stepChanged_false p tab Hchanged) as (q & Hq & Hsame).
      unfold windowOk in Hok. rewrite Hq, Hsame in Hok.
      destruct (metricsChanged p tab); [|exact Hok].
      pose proof (appendEntry_length p (history tab)) as Hlen.
      split; [|lia]. split; [contradiction|].
      intros Hempty. rewrite Hempty in Hlen. simpl in Hlen. lia.
Qed.

Lemma mounted_windowOk (tab : Tab) : mounted tab -> windowOk tab.
Proof.
  induction 1 as [p|tab p _ IH]; apply windowOk_render;
    [apply windowOk_unmounted | exact IH].
Qed.

(** C7.  Whatever the tab has rendered so far, and so for every window it can
    hold, empty or not, a render that shows step 0 leaves the window empty;
    the same holds when the tab is first mounted at step 0. *)
Theorem zero_step_clears_window (tab : Tab) (p : Props) :
  mounted tab ->
  SimState.step (simState p) = 0 ->
  history (render tab p) = []
  /\ history (render unmounted p) = [].
Proof.
  intros Hmounted Hz.
  assert (Hclear : forall t, windowOk t -> history (render t p) = []).
  { intros t Hok.
    pose proof (windowOk_render t p Hok) as Hnext.
    unfold windowOk in Hnext. cbn [committed render] in Hnext.
    apply Hnext, Hz. }
  split; apply Hclear; [apply mounted_windowOk, Hmounted|].
  apply windowOk_unmounted.
Qed.

Lemma zero_step_clears_window_witness :
  history (renderAll (countingUp 3) unmounted) <> []
  /\ history (render (renderAll (countingUp 3) unmounted)
                     (AnalysisTab.mkProps (SimState.mk 0 false)
                        useSimulation.defaultMetrics 4)) = [].
Proof.
  split; [discriminate|].
  apply (zero_step_clears_window
           (renderAll (countingUp 3) unmounted)
           (AnalysisTab.mkProps (SimState.mk 0 false)
              useSimulation.defaultMetrics 4)).
  - repeat constructor.
  - reflexivity.
Defined.

Lemma stepChanged_fresh (p : Props) (tab : Tab) :
  (forall q, committed tab = Some q ->
             SimState.step (simState q) <> SimState.step (simState p)) ->
  stepChanged p tab = true.
Proof.
  unfold stepChanged. intros Hfresh.
  destruct (committed tab) as [q|]; [|reflexivity].
  apply negb_true_iff, N.eqb_neq, Hfresh. reflexivity.
Qed.

(** Renders whose steps are non-zero and never repeat each append. *)
Lemma renderAll_appends (ps : list Props) (tab : Tab) :
  Forall (fun p => SimState.step (simState p) <> 0) ps ->
  NoDup (map (fun p => SimState.step (simState p)) ps) ->
  (forall q, committed tab = Some q ->
             SimState.step (simState q)
             ∉ map (fun p => SimState.step (simState p)) ps) ->
  (length (history tab) <= MAX_HISTORY)%nat ->
  history (renderAll ps tab)
  = sliceLast MAX_HISTORY (history tab ++ map newEntry ps).
Proof.
  intros Hnz. revert tab.
  induction Hnz as [|p ps Hp _ IH]; intros tab Hnodup Hfresh Hlen.
  - simpl. rewrite app_nil_r. symmetry. apply sliceLast_short, Hlen.
  - cbn [map] in Hnodup, Hfresh. apply NoDup_cons in Hnodup as [Hnotin Hnodup].
    assert (Hhist : history (render tab p) = appendEntry p (history tab)).
    { rewrite (render_nonzero tab p Hp), stepChanged_fresh; [reflexivity|].
      intros q Hq Heq. apply (Hfresh q Hq). rewrite Heq. left. }
    unfold renderAll in *. cbn [fold_left map].
    rewrite IH.
    + rewrite Hhist, appendEntry_sliceLast, sliceLast_app.
      rewrite <- app_assoc. reflexivity.
    + exact Hnodup.
    + intros q Hq. injection Hq as <-. exact Hnotin.
    + rewrite Hhist. apply appendEntry_length.
Qed.

(** C3.  Starting from an empty window (of a tab about to mount, or of a
    mounted one), 105 successive renders whose steps are non-zero and
    pairwise distinct leave exactly 100 entries: those of the last 100
    renders, the first 5 dropped, in arrival order, oldest first. *)
Theorem history_window_eviction (tab : Tab) (ps : list Props) :
  tab = unmounted \/ mounted tab ->
  history tab = [] ->
  length ps = 105%nat ->
  Forall (fun p => SimState.step (simState p) <> 0) ps ->
  NoDup (map (fun p => SimState.step (simState p)) ps) ->
  history (renderAll ps tab) = map newEntry (drop 5 ps)
  /\ length (history (renderAll ps tab)) = 100%nat.
Proof.
  intros Hstart Hempty Hlen Hnz Hnodup.
  assert (Hok : windowOk tab).
  { destruct Hstart as [->|Hmounted];
      [apply windowOk_unmounted | apply mounted_windowOk, Hmounted]. }
  assert (Hhist : history (renderAll ps tab) = map newEntry (drop 5 ps)).
  { rewrite renderAll_appends; try assumption.
    - rewrite Hempty. cbn [app]. unfold sliceLast.
      rewrite length_map, Hlen. change (105 - MAX_HISTORY)%nat with 5%nat.
      symmetry. apply fmap_drop.
    - intros q Hq Hin.
      unfold windowOk in Hok. rewrite Hq in Hok.
      destruct Hok as [[_ Hzero] _]. specialize (Hzero Hempty).
      rewrite Hzero in Hin.
      apply list_elem_of_fmap in Hin as (p & Hp & Hin).
      rewrite Forall_forall in Hnz. apply (Hnz p Hin). symmetry. exact Hp.
    - rewrite Hempty. simpl. lia. }
  split; [exact Hhist|].
  rewrite Hhist, length_map, length_drop, Hlen. reflexivity.
Qed.

Lemma history_window_eviction_witness :
  history (renderAll (countingUp 105) (render unmounted (propsAt 0 0)))
  = map newEntry (drop 5 (countingUp 105))
  /\ length (history (renderAll (countingUp 105)
                                (render unmounted (propsAt 0 0)))) = 100%nat.
Proof.
  apply (history_window_eviction
           (render unmounted (propsAt 0 0)) (countingUp 105)).
  - right. constructor.
  - reflexivity.
  - reflexivity.
  - apply (bool_decide_unpack _). vm_compute. exact I.
  - apply (bool_decide_unpack _). vm_compute. exact I.
Defined.

(** Snapshots delivered to the hook reach the window through the props
    [App] passes down. *)
Example delivered_snapshots_fill_window :
  let h1 := useSimulation.updateFromState (Some (stepOnly 1))
              useSimulation.initial in
  let h2 := useSimulation.updateFromState (Some (stepOnly 2)) h1 in
  map step
    (history (renderAll [analysisProps h1; analysisProps h2]
                        (render unmounted
                                (analysisProps useSimulation.initial))))
  = [1; 2].
Proof. reflexivity. Qed.

Lemma MiniChart_placeholder (data : list JsNumber) (message : string) :
  MiniChart data = ChartPlaceholder message ->
  data = [] /\ message = "No data yet — run simulation".
Proof.
  destruct data as [|d0 rest]; simpl.
  - intros Heq. injection Heq as <-. auto.
  - destruct (last (d0 :: rest)) as [[v|]|]; discriminate.
Qed.

Lemma StatsSummary_none (h : list HistoryEntry) :
  StatsSummary h = None <-> h = [].
Proof.
  split; [|intros ->; reflexivity].
  destruct h as [|first rest]; [reflexivity|].
  unfold StatsSummary.
  destruct (last (first :: rest)) as [latest|] eqn:Hlast; [discriminate|].
  apply last_None in Hlast. discriminate.
Qed.

(** C8.  On the empty window every derived series is empty, the stats
    summary renders nothing, and every chart renders its placeholder (no
    plot, no error).  The empty window is the only one treated so: a mini
    chart shows the placeholder exactly for the empty series, and the
    summary is absent exactly for the empty window. *)
Theorem empty_window_is_no_data :
  (mempoolData [] = [] /\ feeData [] = [] /\ blocksData [] = []
   /\ hashrateData [] = [] /\ difficultyData [] = [])
  /\ view []
     = {| summary := None;
          mempoolChart := ChartPlaceholder "No data yet — run simulation";
          feeChart := ChartPlaceholder "No data yet — run simulation";
          blocksChart := ChartPlaceholder "No data yet — run simulation";
          hashrateChart := ChartPlaceholder "No data yet — run simulation";
          correlation :=
            CorrelationPlaceholder "Need more data for correlation" |}
  /\ (forall data : list JsNumber,
        (exists message, MiniChart data = ChartPlaceholder message)
        <-> data = [])
  /\ (forall h : list HistoryEntry, StatsSummary h = None <-> h = []).
Proof.
  split; [repeat split; reflexivity|].
  split; [reflexivity|].
  split; [|apply StatsSummary_none].
  intros data. split.
  - intros [message Hplaceholder].
    apply (MiniChart_placeholder data message Hplaceholder).
  - intros ->. eexists. reflexivity.
Qed.

End History.

(* ===================================================================== *)
(** * The scenario hypothesis bar *)
(* ===================================================================== *)

Section ScenarioBanner.
Import App.

Lemma truthy_spec (s : option string) :
  truthy s = true <-> exists text, s = Some text /\ text <> "".
Proof.
  unfold truthy. destruct s as [text|].
  - destruct (String.eqb_spec text "") as [->|Hne]; simpl; split.
    + discriminate.
    + intros (t & Ht & Hne). injection Ht as <-. contradiction.
    + eauto.
    + reflexivity.
  - split; [discriminate|]. intros (t & Ht & _). discriminate.
Qed.

(** C9 (as the code has it).  The hypothesis bar is shown exactly when the
    active scenario's id is not "baseline" and its hypothesis is a
    non-empty text; when shown, its text is that scenario's hypothesis
    (headed by the scenario's name); under "baseline" no bar is shown,
    whatever the hypothesis. *)
Theorem hypothesis_bar_policy (sc : Scenario) :
  ((exists bar, hypothesisBar sc = Some bar)
   <-> id sc <> "baseline"
       /\ exists text, hypothesis sc = Some text /\ text <> "")
  /\ (forall bar, hypothesisBar sc = Some bar ->
                  hypothesis sc = Some (text bar)
                  /\ heading bar = name sc ++ ":")
  /\ (id sc = "baseline" -> hypothesisBar sc = None).
Proof.
  unfold hypothesisBar.
  destruct (String.eqb_spec (id sc) "baseline") as [Hbase|Hother]; simpl.
  - split; [|split].
    + split; [intros [bar Hbar]; discriminate|].
      intros [Hne _]. contradiction.
    + discriminate.
    + reflexivity.
  - destruct (truthy (hypothesis sc)) eqn:Htruthy.
    + apply truthy_spec in Htruthy as (t & Ht & Hne).
      split; [|split].
      * split; [intros _; eauto|intros _; eauto].
      * intros bar Hbar. injection Hbar as <-. simpl.
        rewrite Ht. auto.
      * contradiction.
    + split; [|split].
      * split; [intros [bar Hbar]; discriminate|].
        intros [_ Htext]. apply truthy_spec in Htext. congruence.
      * discriminate.
      * contradiction.
Qed.

(** C9 fails on the code: with "baseline" active and carrying a hypothesis,
    no bar is shown, yet the scenario selector drawn by the same render
    has that hypothesis as its title, so the text is surfaced. *)
Lemma baseline_hypothesis_in_selector_title :
  let baseline :=
    mkScenario "baseline" "Baseline" (Some "Fees stay near the floor") ∅ in
  id baseline = "baseline"
  /\ hypothesisBar baseline = None
  /\ Header.scenarioSelector [baseline] baseline
     = Some {| Header.value := "baseline";
               Header.title := "Fees stay near the floor";
               Header.options := [("baseline", "Baseline")] |}
  /\ Some (Header.title
             {| Header.value := "baseline";
                Header.title := "Fees stay near the floor";
                Header.options := [("baseline", "Baseline")] |})
     = hypothesis baseline.
Proof. cbv zeta. repeat split; reflexivity. Qed.

End ScenarioBanner.

(* ===================================================================== *)
(** * Further properties of the hook *)
(* ===================================================================== *)

Section HookProperties.
Import useSimulation.

Lemma keys_kept_updateFromState (state : option Snapshot) (h : Hook) (k : string) :
  is_Some (metrics h !! k) -> is_Some (metrics (updateFromState state h) !! k).
Proof.
  destruct state as [s|]; [|trivial].
  rewrite updateFromState_metrics.
  destruct (snap_metrics s) as [m|]; [|trivial].
  destruct (orEmpty (snap_activity s) !! k); [eauto|].
  destruct (m !! k); [eauto|trivial].
Qed.

Lemma keys_kept_settled (r : FetchResult) (h : Hook) (k : string) :
  is_Some (metrics h !! k) -> is_Some (metrics (stepSettled r h) !! k).
Proof.
  destruct r as [message|status state]; simpl; [trivial|].
  destruct (String.eqb status "ok"); [|trivial].
  apply keys_kept_updateFromState.
Qed.

Lemma keys_kept_handle (e : Event) (h : Hook) (k : string) :
  is_Some (metrics h !! k) -> is_Some (metrics (handle h e) !! k).
Proof.
  destruct e; simpl.
  - destruct h as [c ss m mi er sl [|] ir ts nt ef]; trivial.
  - destruct h as [c ss m mi er sl rr [id|] ts nt ef]; trivial.
  - unfold step. destruct (socketLive h); trivial.
  - destruct h as [c ss m mi er [|] [|] [id|] ts nt ef]; trivial.
  - trivial.
  - trivial.
  - trivial.
  - trivial.
  - apply keys_kept_updateFromState.
  - apply keys_kept_settled.
  - apply keys_kept_settled.
  - unfold intervalFired. destruct (bool_decide _); [|trivial].
    destruct (runningRef h); [|trivial].
    unfold step. destruct (socketLive h); trivial.
Qed.

Lemma reachable_keepsDefaultKeys (h : Hook) :
  reachable h -> keepsDefaultKeys (metrics h).
Proof.
  induction 1 as [|h e _ IH]; intros k Hk; [exact Hk|].
  apply keys_kept_handle, IH, Hk.
Qed.

(** X1.  No event ever removes a key from the metrics shown: a key present
    before an event is present after it.  So in every state the hook can
    reach, each of the eight metrics it starts with is still defined. *)
Theorem metric_keys_are_never_lost (h : Hook) (e : Event) :
  reachable h ->
  (forall k, is_Some (metrics h !! k) -> is_Some (metrics (handle h e) !! k))
  /\ Forall (fun k => is_Some (metrics h !! k))
       ["block_height"; "hashrate"; "difficulty"; "mempool_size"; "avg_fee";
        "blocks_mined"; "transactions_processed"; "bips_proposed"].
Proof.
  intros Hreach. split; [intros k; apply keys_kept_handle|].
  pose proof (reachable_keepsDefaultKeys h Hreach) as Hkeep.
  repeat constructor; apply Hkeep; eexists; reflexivity.
Qed.

Lemma metric_keys_are_never_lost_witness :
  is_Some (metrics (handle initial
             (StateUpdate (Some (mkSnapshot (Some 1)
                (Some (<["mempool_size" := 12%float]> (∅ : Metrics)))
                None)))) !! "hashrate").
Proof.
  destruct (metric_keys_are_never_lost
              (handle initial
                 (StateUpdate (Some (mkSnapshot (Some 1)
                    (Some (<["mempool_size" := 12%float]> (∅ : Metrics)))
                    None))))
              Step
              (reachable_handle initial _ reachable_initial))
    as [_ Hall].
  apply Forall_cons in Hall as [_ Hall].
  apply Forall_cons in Hall as [Hhashrate _].
  exact Hhashrate.
Defined.

(** X2.  Delivering the same snapshot twice in a row shows what delivering
    it once shows: the merge of step and metrics is idempotent. *)
Theorem redelivery_shows_the_same (state : option Snapshot) (h : Hook) :
  shown (updateFromState state (updateFromState state h))
  = shown (updateFromState state h).
Proof.
  destruct state as [s|]; [|reflexivity].
  unfold shown. f_equal.
  - rewrite !updateFromState_step. destruct (snap_step s); reflexivity.
  - apply map_eq. intros k. rewrite !updateFromState_metrics.
    destruct (snap_metrics s) as [m|]; [|reflexivity].
    destruct (orEmpty (snap_activity s) !! k); [reflexivity|].
    destruct (m !! k); reflexivity.
Qed.

(** X3.  In every state the hook can reach, the running flag shown to the
    UI agrees with the driver: it equals [runningRef]; a timer handle is
    held exactly while running; and the live timers are that one handle
    while running and none while stopped. *)
Theorem running_flag_matches_driver (h : Hook) :
  reachable h ->
  SimState.running (simState h) = runningRef h
  /\ (is_Some (intervalRef h) <-> runningRef h = true)
  /\ timers h = match intervalRef h with Some id => [id] | None => [] end
  /\ length (timers h) = (if runningRef h then 1 else 0)%nat.
Proof.
  intros Hreach.
  destruct (reachable_driverOk h Hreach) as [Hflag Hint].
  split; [exact Hflag|].
  destruct (intervalRef h) as [id|]; destruct Hint as [Hrun Hts];
    rewrite Hrun, Hts; repeat split; eauto.
  - intros [x Hx]. discriminate.
  - discriminate.
Qed.

Lemma running_flag_matches_driver_witness :
  SimState.running (simState (handleAll [Run; Step; Stop; Run] initial)) = true
  /\ length (timers (handleAll [Run; Step; Stop; Run] initial)) = 1%nat.
Proof.
  assert (Hreach : reachable (handleAll [Run; Step; Stop; Run] initial)).
  { repeat apply reachable_handle. apply reachable_initial. }
  destruct (running_flag_matches_driver _ Hreach) as (Hflag & _ & _ & Hlen).
  split; [exact Hflag | exact Hlen].
Defined.

(** X4.  Incoming data and connection events never drive the run loop and
    never send anything: a state update, a settled REST call, a connect,
    disconnect or connect error, and clearing the error all leave the
    running flag, [runningRef], the timer handle, the live timers and the
    log of outside effects as they were. *)
Theorem incoming_events_leave_driver_alone (e : Event) (h : Hook) :
  match e with
  | Run | Stop | Step | Reset _ | IntervalFired _ => True
  | _ =>
      SimState.running (simState (handle h e)) = SimState.running (simState h)
      /\ runningRef (handle h e) = runningRef h
      /\ intervalRef (handle h e) = intervalRef h
      /\ timers (handle h e) = timers h
      /\ effects (handle h e) = effects h
  end.
Proof.
  assert (Hupdate : forall state,
    SimState.running (simState (updateFromState state h))
    = SimState.running (simState h)
    /\ runningRef (updateFromState state h) = runningRef h
    /\ intervalRef (updateFromState state h) = intervalRef h
    /\ timers (updateFromState state h) = timers h
    /\ effects (updateFromState state h) = effects h).
  { intros [s|]; [|repeat split; reflexivity].
    unfold updateFromState. destruct (snap_metrics s); repeat split; reflexivity. }
  assert (Hsettled : forall r,
    SimState.running (simState (stepSettled r h))
    = SimState.running (simState h)
    /\ runningRef (stepSettled r h) = runningRef h
    /\ intervalRef (stepSettled r h) = intervalRef h
    /\ timers (stepSettled r h) = timers h
    /\ effects (stepSettled r h) = effects h).
  { intros [message|status state]; simpl; [repeat split; reflexivity|].
    destruct (String.eqb status "ok"); [apply Hupdate|repeat split; reflexivity]. }
  destruct e; simpl; trivial; repeat split; reflexivity.
Qed.

Lemma run_then_stop_effects (h : Hook) :
  runningRef h = false ->
  performedSince h (stop (run h))
  = [SetInterval (nextTimer h) 150; ClearInterval (nextTimer h)].
Proof.
  destruct h as [c ss m mi er sl rr ir ts nt ef]; simpl. intros ->.
  unfold performedSince, stop, run; simpl.
  rewrite <- app_assoc, drop_app_length. reflexivity.
Qed.

(** X5.  From a stopped state the hook can reach, run() followed by stop()
    sets one 150 ms interval and clears that very interval, and leaves
    step, running flag, metrics, error, timer handle and live timers as
    they were before run(). *)
Theorem run_then_stop_round_trip (h : Hook) :
  reachable h ->
  runningRef h = false ->
  performedSince h (stop (run h))
  = [SetInterval (nextTimer h) 150; ClearInterval (nextTimer h)]
  /\ simState (stop (run h)) = simState h
  /\ metrics (stop (run h)) = metrics h
  /\ error (stop (run h)) = error h
  /\ runningRef (stop (run h)) = false
  /\ intervalRef (stop (run h)) = intervalRef h
  /\ timers (stop (run h)) = timers h.
Proof.
  intros Hreach Hstopped.
  split; [apply run_then_stop_effects, Hstopped|].
  destruct (reachable_driverOk h Hreach) as [Hflag Hint].
  destruct h as [c [n r] m mi er sl rr [id|] ts nt ef]; simpl in *;
    destruct Hint as [Hrun ->]; subst; try discriminate.
  unfold stop, run; simpl. rewrite filter_only_timer.
  repeat split; reflexivity.
Qed.

Lemma run_then_stop_round_trip_witness :
  performedSince initial (stop (run initial))
  = [SetInterval 1 150; ClearInterval 1]
  /\ timers (stop (run initial)) = [].
Proof.
  destruct (run_then_stop_round_trip initial reachable_initial eq_refl)
    as (Heffects & _ & _ & _ & _ & _ & Htimers).
  split; [exact Heffects | exact Htimers].
Defined.

(** X6.  In every state the hook can reach, reset() is stop() followed by
    sending the reset intent over the transport that is live. *)
Theorem reset_is_stop_then_send (params : Params) (h : Hook) :
  reachable h ->
  reset params h = perform (resetIntent params h) (stop h).
Proof.
  intros Hreach.
  destruct (reachable_driverOk h Hreach) as [Hflag Hint].
  destruct h as [c [n r] m mi er [|] [|] [id|] ts nt ef]; simpl in *;
    destruct Hint as [Hrun ->]; subst; try discriminate; reflexivity.
Qed.

Lemma reset_is_stop_then_send_witness :
  reset ∅ (handle initial Run)
  = perform (PostReset ∅) (stop (handle initial Run)).
Proof.
  apply (reset_is_stop_then_send ∅ (handle initial Run)
           (reachable_handle initial Run reachable_initial)).
Defined.

(** X7.  The header's run/stop button toggles the driver: in every state
    the hook can reach, one click flips [runningRef] and the running flag,
    the button's title afterwards names the opposite action, and the
    number of live timers is 1 after a click that starts the run and 0
    after one that stops it. *)
Theorem run_stop_button_toggles (h : Hook) :
  reachable h ->
  runningRef (Header.runStopClick h) = negb (runningRef h)
  /\ SimState.running (simState (Header.runStopClick h))
     = negb (SimState.running (simState h))
  /\ Header.runStopTitle (simState (Header.runStopClick h))
     = (if runningRef h then "Run" else "Stop")
  /\ length (timers (Header.runStopClick h))
     = (if runningRef h then 0 else 1)%nat.
Proof.
  intros Hreach.
  destruct (reachable_driverOk h Hreach) as [Hflag Hint].
  destruct h as [c [n r] m mi er sl rr [id|] ts nt ef]; simpl in *;
    destruct Hint as [Hrun ->]; subst;
    unfold Header.runStopClick, Header.runStopTitle, stop, run; simpl;
    try rewrite filter_only_timer; repeat split; reflexivity.
Qed.

Lemma run_stop_button_toggles_witness :
  runningRef (Header.runStopClick (Header.runStopClick initial)) = false
  /\ length (timers (Header.runStopClick initial)) = 1%nat.
Proof.
  destruct (run_stop_button_toggles initial reachable_initial)
    as (_ & _ & _ & Hone).
  destruct (run_stop_button_toggles (handle initial Run)
              (reachable_handle initial Run reachable_initial))
    as (Hflip & _).
  split; [exact Hflip | exact Hone].
Defined.

End HookProperties.

(* ===================================================================== *)
(** * Further properties of the history window *)
(* ===================================================================== *)

Section WindowProperties.
Import AnalysisTab.

Lemma sliceLast_snoc {A} (n : nat) (l : list A) (x : A) :
  (0 < n)%nat ->
  sliceLast n (l ++ [x]) = (drop (S (length l) - n) l ++ [x])%list.
Proof.
  unfold sliceLast. intros Hn.
  rewrite length_app. cbn [length].
  replace (length l + 1 - n)%nat with (S (length l) - n)%nat by lia.
  apply drop_app_le. lia.
Qed.

Lemma appendEntry_snoc (p : Props) (prev : list HistoryEntry) :
  appendEntry p prev
  = (drop (S (length prev) - MAX_HISTORY) prev ++ [newEntry p])%list.
Proof.
  rewrite appendEntry_sliceLast. apply sliceLast_snoc.
  unfold MAX_HISTORY. lia.
Qed.

Lemma render_history_cases (tab : Tab) (p : Props) :
  history (render tab p) = []
  \/ history (render tab p) = history tab
  \/ (SimState.step (simState p) <> 0
      /\ history (render tab p) = appendEntry p (history tab)).
Proof.
  destruct (N.eq_dec (SimState.step (simState p)) 0) as [Hz|Hnz].
  - rewrite (render_zero tab p Hz). destruct (stepChanged p tab); auto.
  - rewrite (render_nonzero tab p Hnz).
    destruct (stepChanged p tab || metricsChanged p tab); auto.
Qed.

Lemma no_zero_entries_render (tab : Tab) (p : Props) :
  Forall (fun e => step e <> 0) (history tab) ->
  Forall (fun e => step e <> 0) (history (render tab p)).
Proof.
  intros Hall.
  destruct (render_history_cases tab p) as [-> | [-> | [Hnz ->]]];
    [constructor | exact Hall |].
  rewrite appendEntry_snoc. apply Forall_app. split.
  - apply Forall_drop, Hall.
  - constructor; [exact Hnz | constructor].
Qed.

(** X8.  The window of a mounted tab never holds more than 100 entries,
    and it is empty exactly when the step last rendered is 0. *)
Theorem window_is_capped (tab : Tab) :
  mounted tab ->
  (length (history tab) <= 100)%nat
  /\ exists p, committed tab = Some p
       /\ (history tab = [] <-> SimState.step (simState p) = 0).
Proof.
  intros Hmounted.
  pose proof (mounted_windowOk tab Hmounted) as Hok.
  unfold windowOk in Hok.
  destruct (committed tab) as [p|] eqn:Hp.
  - destruct Hok as [Hiff Hlen]. split; [exact Hlen|].
    exists p. split; [reflexivity|]. symmetry. exact Hiff.
  - destruct Hmounted; discriminate.
Qed.

Lemma window_is_capped_witness :
  (length (history (renderAll (countingUp 250) unmounted)) <= 100)%nat.
Proof.
  assert (Hmounted : mounted (renderAll (countingUp 250) unmounted)).
  { change (countingUp 250) with (propsAt 1 1 :: map (fun i => propsAt (N.of_nat i) i) (seq 2 249)).
    unfold renderAll. cbn [fold_left].
    generalize (map (fun i => propsAt (N.of_nat i) i) (seq 2 249)).
    generalize (mounted_first (propsAt 1 1)).
    generalize (render unmounted (propsAt 1 1)).
    intros t Ht l. revert t Ht.
    induction l as [|q l IH]; intros t Ht; [exact Ht|].
    apply IH, mounted_next, Ht. }
  apply (window_is_capped _ Hmounted).
Defined.

(** X9.  The window of a mounted tab never holds an entry for step 0. *)
Theorem window_has_no_zero_step (tab : Tab) :
  mounted tab ->
  Forall (fun e => step e <> 0) (history tab).
Proof.
  induction 1 as [p|tab p _ IH]; apply no_zero_entries_render;
    [constructor | exact IH].
Qed.

Lemma window_has_no_zero_step_witness :
  Forall (fun e => step e <> 0)
         (history (render (render unmounted (propsAt 0 0)) (propsAt 4 1))).
Proof.
  apply window_has_no_zero_step. apply mounted_next, mounted_first.
Defined.


(** X11.  When a render brings a step that is not 0 and differs from the
    step last rendered, the newest (last) entry of the window is the
    projection of the props just rendered, whatever was evicted. *)
Theorem newest_entry_is_last (tab : Tab) (p : Props) :
  SimState.step (simState p) <> 0 ->
  stepChanged p tab = true ->
  last (history (render tab p)) = Some (newEntry p).
Proof.
  intros Hnz Hchanged.
  rewrite (render_nonzero tab p Hnz), Hchanged. cbn [orb].
  rewrite appendEntry_snoc. apply last_snoc.
Qed.

Lemma newest_entry_is_last_witness :
  last (history (render (renderAll (countingUp 120) unmounted) (propsAt 500 7)))
  = Some (newEntry (propsAt 500 7)).
Proof.
  apply (newest_entry_is_last (renderAll (countingUp 120) unmounted)
           (propsAt 500 7)).
  - discriminate.
  - vm_compute. reflexivity.
Defined.

(** X12.  Eviction is first in, first out: appending to a window of at most
    100 entries keeps every entry while there is room and otherwise drops
    exactly the oldest one; the new entry goes last. *)
Theorem append_evicts_oldest (p : Props) (prev : list HistoryEntry) :
  (length prev <= MAX_HISTORY)%nat ->
  appendEntry p prev
  = ((if (length prev <? MAX_HISTORY)%nat then prev else drop 1 prev)
     ++ [newEntry p])%list.
Proof.
  intros Hlen. rewrite appendEntry_snoc.
  assert (Hcap : MAX_HISTORY = 100%nat) by reflexivity.
  destruct (Nat.ltb_spec (length prev) MAX_HISTORY) as [Hlt|Hge].
  - replace (S (length prev) - MAX_HISTORY)%nat with 0%nat by lia.
    reflexivity.
  - replace (S (length prev) - MAX_HISTORY)%nat with 1%nat by lia.
    reflexivity.
Qed.

Lemma append_evicts_oldest_witness :
  appendEntry (propsAt 101 101) (map newEntry (countingUp 100))
  = (drop 1 (map newEntry (countingUp 100))
     ++ [newEntry (propsAt 101 101)])%list.
Proof.
  apply (append_evicts_oldest (propsAt 101 101) (map newEntry (countingUp 100))).
  vm_compute. lia.
Defined.

End WindowProperties.

(* ===================================================================== *)
(** * The charts and the summary *)
(* ===================================================================== *)

Section ChartProperties.
Import AnalysisTab.

Lemma orElse_one (x : float) :
  PrimFloat.eqb (orElse x 1) 0 = false
  /\ PrimFloat.is_nan (orElse x 1) = false.
Proof.
  unfold orElse.
  destruct (PrimFloat.eqb x 0) eqn:Hzero; cbn [orb].
  - split; reflexivity.
  - destruct (PrimFloat.is_nan x) eqn:Hnan; split;
      reflexivity || assumption.
Qed.

(** X13.  Whenever a mini chart draws a plot, the range it divides by is
    neither zero nor NaN, it plots as many points as the series has, its
    scale is the minimum and maximum of the series, and the value it
    shows as current is the last element of the series. *)
Theorem plot_is_well_scaled
    (data : list JsNumber) (minVal maxVal range : float)
    (heights : list float) (currentVal : float) (points : nat) :
  MiniChart data = ChartPlot minVal maxVal range heights currentVal points ->
  PrimFloat.eqb range 0 = false
  /\ PrimFloat.is_nan range = false
  /\ points = length data
  /\ length heights = length data
  /\ minVal = mathMin data
  /\ maxVal = mathMax data
  /\ last data = Some (Some currentVal).
Proof.
  destruct data as [|d0 rest]; [discriminate|].
  unfold MiniChart.
  destruct (last (d0 :: rest)) as [[v|]|]; try discriminate.
  intros Heq. injection Heq as <- <- <- <- <- <-.
  destruct (orElse_one (mathMax (d0 :: rest) - mathMin (d0 :: rest))%float)
    as [Hzero Hnan].
  repeat split; try assumption; try reflexivity.
  cbn [length map]. rewrite length_map. reflexivity.
Qed.

Lemma plot_is_well_scaled_witness :
  exists range,
    MiniChart [Some 4%float; Some 4%float]
    = ChartPlot 4 4 range [0%float; 0%float] 4 2
    /\ PrimFloat.eqb range 0 = false.
Proof.
  exists 1%float. split; [reflexivity|].
  apply (plot_is_well_scaled [Some 4%float; Some 4%float]
           4 4 1 [0%float; 0%float] 4 2 eq_refl).
Defined.

Lemma min2_nan (a : float) : min2 a nan = nan /\ min2 nan a = nan.
Proof.
  unfold min2. change (PrimFloat.is_nan nan) with true.
  rewrite orb_true_r. split; reflexivity.
Qed.

Lemma max2_nan (a : float) : max2 a nan = nan /\ max2 nan a = nan.
Proof.
  unfold max2. change (PrimFloat.is_nan nan) with true.
  rewrite orb_true_r. split; reflexivity.
Qed.

Lemma fold_min2_nan (data : list JsNumber) :
  fold_left (fun acc v => min2 acc (toNumber v)) data nan = nan.
Proof.
  induction data as [|v data IH]; [reflexivity|].
  cbn [fold_left]. rewrite (proj2 (min2_nan (toNumber v))). exact IH.
Qed.

Lemma fold_max2_nan (data : list JsNumber) :
  fold_left (fun acc v => max2 acc (toNumber v)) data nan = nan.
Proof.
  induction data as [|v data IH]; [reflexivity|].
  cbn [fold_left]. rewrite (proj2 (max2_nan (toNumber v))). exact IH.
Qed.

(** X14.  A series with a missing (undefined) value anywhere has NaN as
    both its Math.min and its Math.max, so the range the charts divide by
    falls back to 1. *)
Theorem missing_value_poisons_scale (data : list JsNumber) :
  None ∈ data ->
  mathMin data = nan
  /\ mathMax data = nan
  /\ orElse (mathMax data - mathMin data)%float 1 = 1%float.
Proof.
  intros Hin.
  assert (Hboth : mathMin data = nan /\ mathMax data = nan).
  { unfold mathMin, mathMax.
    generalize infinity. generalize neg_infinity.
    induction data as [|v data IH]; intros lo hi.
    - apply elem_of_nil in Hin. contradiction.
    - cbn [fold_left]. apply elem_of_cons in Hin as [<-|Hin].
      + cbn [toNumber].
        rewrite (proj1 (min2_nan hi)), (proj1 (max2_nan lo)).
        split; [apply fold_min2_nan | apply fold_max2_nan].
      + apply IH, Hin. }
  destruct Hboth as [-> ->]. repeat split; reflexivity.
Qed.

Lemma missing_value_poisons_scale_witness :
  mathMin [Some 3%float; None; Some 5%float] = nan.
Proof.
  apply (missing_value_poisons_scale [Some 3%float; None; Some 5%float]).
  apply list_elem_of_further, list_elem_of_here.
Defined.

Lemma MiniChart_defined (data : list JsNumber) :
  Forall (fun v => is_Some v) data -> MiniChart data <> ChartTypeError.
Proof.
  intros Hall. destruct data as [|d0 rest]; [discriminate|].
  unfold MiniChart.
  destruct (last (d0 :: rest)) as [[v|]|] eqn:Hlast; try discriminate.
  - apply last_Some_elem_of in Hlast.
    rewrite Forall_forall in Hall. destruct (Hall None Hlast). discriminate.
  - apply last_None in Hlast. discriminate.
Qed.

(** X15.  The correlation chart shows its placeholder exactly for windows
    of fewer than two entries; otherwise it plots the two normalised
    series, each with one point per window entry. *)
Theorem correlation_needs_two_points (h : list HistoryEntry) :
  ((exists message, correlation (view h) = CorrelationPlaceholder message)
   <-> (length h < 2)%nat)
  /\ (forall norm1 norm2,
        correlation (view h) = CorrelationPlot norm1 norm2 ->
        length norm1 = length h /\ length norm2 = length h).
Proof.
  unfold view; cbn [correlation]. unfold CorrelationChart, hashrateData.
  rewrite length_map.
  destruct (Nat.ltb_spec (length h) 2) as [Hlt|Hge]; split.
  - split; [intros _; exact Hlt | intros _; eexists; reflexivity].
  - discriminate.
  - split; [intros [message Hm]; discriminate | lia].
  - intros norm1 norm2 Heq. injection Heq as <- <-.
    unfold normalize, difficultyData. rewrite !length_map. auto.
Qed.

(** X16.  For a mounted tab with a non-empty window the summary is shown,
    and the number of data points it reports is the window's length,
    between 1 and 100. *)
Theorem summary_counts_the_window (tab : Tab) :
  mounted tab ->
  history tab <> [] ->
  exists stats,
    summary (view (history tab)) = Some stats
    /\ dataPoints stats = length (history tab)
    /\ (1 <= dataPoints stats <= 100)%nat.
Proof.
  intros Hmounted Hne.
  pose proof (mounted_windowOk tab Hmounted) as Hok.
  unfold windowOk in Hok.
  destruct (committed tab) as [p|]; [|contradiction].
  destruct Hok as [_ Hlen].
  unfold view; cbn [summary]. unfold StatsSummary.
  destruct (history tab) as [|first rest] eqn:Hh; [contradiction|].
  destruct (last (first :: rest)) as [latest|] eqn:Hlast.
  - eexists. split; [reflexivity|]. cbn [dataPoints].
    split; [reflexivity|]. cbn [length] in *. unfold MAX_HISTORY in Hlen. lia.
  - apply last_None in Hlast. discriminate.
Qed.

Lemma summary_counts_the_window_witness :
  exists stats,
    summary (view (history (render (render unmounted (propsAt 1 1))
                                   (propsAt 2 2)))) = Some stats
    /\ dataPoints stats = 2%nat.
Proof.
  destruct (summary_counts_the_window
              (render (render unmounted (propsAt 1 1)) (propsAt 2 2)))
    as (stats & Hsome & Hcount & _).
  - apply mounted_next, mounted_first.
  - discriminate.
  - exists stats. split; [exact Hsome | exact Hcount].
Defined.

End ChartProperties.

(* ===================================================================== *)
(** * The hook feeding the analysis tab *)
(* ===================================================================== *)

Section HookToWindow.
Import useSimulation.

Lemma analysisProps_step (h : Hook) :
  SimState.step (AnalysisTab.simState (analysisProps h)) = displayedStep h.
Proof. reflexivity. Qed.

Lemma metricsId_updateFromState (s : Snapshot) (h : Hook) :
  metricsId (updateFromState (Some s) h)
  = match snap_metrics s with
    | Some _ => S (metricsId h)
    | None => metricsId h
    end.
Proof. unfold updateFromState. destruct (snap_metrics s); reflexivity. Qed.

(** X17.  While a non-zero step is displayed, a snapshot that does not
    change the step (it carries none, or the same one) adds a history entry
    exactly when it carries a metrics bundle: with one, the window gets
    another entry for the same step; without one, the window is untouched. *)
Theorem same_step_snapshot_and_window
    (s : Snapshot) (h : Hook) (tab : AnalysisTab.Tab) :
  AnalysisTab.committed tab = Some (analysisProps h) ->
  displayedStep h <> 0 ->
  nullish (snap_step s) (displayedStep h) = displayedStep h ->
  let after := analysisProps (updateFromState (Some s) h) in
  AnalysisTab.history (AnalysisTab.render tab after)
  = match snap_metrics s with
    | Some _ => AnalysisTab.appendEntry after (AnalysisTab.history tab)
    | None => AnalysisTab.history tab
    end
  /\ AnalysisTab.step (AnalysisTab.newEntry after) = displayedStep h.
Proof.
  intros Hcommitted Hnz Hsame after.
  assert (Hstep : SimState.step (AnalysisTab.simState after) = displayedStep h).
  { unfold after. rewrite analysisProps_step, updateFromState_step. exact Hsame. }
  split; [|exact Hstep].
  rewrite render_nonzero by (rewrite Hstep; exact Hnz).
  assert (Hunchanged : AnalysisTab.stepChanged after tab = false).
  { unfold AnalysisTab.stepChanged. rewrite Hcommitted, Hstep.
    rewrite analysisProps_step, N.eqb_refl. reflexivity. }
  rewrite Hunchanged. cbn [orb].
  unfold AnalysisTab.metricsChanged. rewrite Hcommitted.
  unfold after. cbn [analysisProps AnalysisTab.metricsId].
  rewrite metricsId_updateFromState.
  destruct (snap_metrics s) as [m|].
  - destruct (Nat.eqb_spec (metricsId h) (S (metricsId h))) as [Heq|_];
      [lia|reflexivity].
  - rewrite Nat.eqb_refl. reflexivity.
Qed.

Lemma same_step_snapshot_and_window_witness :
  let h := updateFromState (Some (stepOnly 3)) initial in
  let s := mkSnapshot (Some 3) (Some (∅ : Metrics)) None in
  map AnalysisTab.step
      (AnalysisTab.history
         (AnalysisTab.render
            (AnalysisTab.render AnalysisTab.unmounted (analysisProps h))
            (analysisProps (updateFromState (Some s) h))))
  = [3; 3].
Proof.
  cbv zeta.
  destruct (same_step_snapshot_and_window
              (mkSnapshot (Some 3) (Some (∅ : Metrics)) None)
              (updateFromState (Some (stepOnly 3)) initial)
              (AnalysisTab.render AnalysisTab.unmounted
                 (analysisProps (updateFromState (Some (stepOnly 3)) initial)))
              eq_refl) as [Hhistory _].
  - discriminate.
  - reflexivity.
  - rewrite Hhistory. reflexivity.
Defined.

Lemma entryComplete_analysisProps (h : Hook) :
  reachable h -> entryComplete (AnalysisTab.newEntry (analysisProps h)).
Proof.
  intros Hreach.
  pose proof (reachable_keepsDefaultKeys h Hreach) as Hkeep.
  unfold entryComplete, AnalysisTab.newEntry, analysisProps; simpl.
  repeat split; apply Hkeep; eexists; reflexivity.
Qed.

Lemma fedByHook_complete (tab : AnalysisTab.Tab) :
  fedByHook tab -> Forall entryComplete (AnalysisTab.history tab).
Proof.
  assert (Hstep : forall t h,
    reachable h ->
    Forall entryComplete (AnalysisTab.history t) ->
    Forall entryComplete
      (AnalysisTab.history (AnalysisTab.render t (analysisProps h)))).
  { intros t h Hreach Hall.
    destruct (render_history_cases t (analysisProps h))
      as [-> | [-> | [_ ->]]]; [constructor | exact Hall |].
    rewrite appendEntry_snoc. apply Forall_app. split.
    - apply Forall_drop, Hall.
    - constructor; [|constructor].
      apply entryComplete_analysisProps, Hreach. }
  induction 1 as [h Hreach|tab h _ IH Hreach]; apply Hstep;
    try assumption.
  constructor.
Qed.

(** X18.  A tab that is only ever given props taken from states the hook
    can reach holds complete entries only (every tracked metric was found),
    and none of its four mini charts fails on a missing current value. *)
Theorem hook_fed_charts_never_fail (tab : AnalysisTab.Tab) :
  fedByHook tab ->
  Forall entryComplete (AnalysisTab.history tab)
  /\ AnalysisTab.mempoolChart (AnalysisTab.view (AnalysisTab.history tab))
     <> AnalysisTab.ChartTypeError
  /\ AnalysisTab.feeChart (AnalysisTab.view (AnalysisTab.history tab))
     <> AnalysisTab.ChartTypeError
  /\ AnalysisTab.blocksChart (AnalysisTab.view (AnalysisTab.history tab))
     <> AnalysisTab.ChartTypeError
  /\ AnalysisTab.hashrateChart (AnalysisTab.view (AnalysisTab.history tab))
     <> AnalysisTab.ChartTypeError.
Proof.
  intros Hfed.
  pose proof (fedByHook_complete tab Hfed) as Hall.
  split; [exact Hall|].
  unfold AnalysisTab.view; simpl.
  repeat split; apply MiniChart_defined;
    unfold AnalysisTab.mempoolData, AnalysisTab.feeData,
      AnalysisTab.blocksData, AnalysisTab.hashrateData;
    apply Forall_fmap; (eapply Forall_impl; [exact Hall|]);
    intros e (Hm & Hf & Hb & Hh & Hd); assumption.
Qed.

Lemma hook_fed_charts_never_fail_witness :
  Forall entryComplete
    (AnalysisTab.history
       (AnalysisTab.render AnalysisTab.unmounted
          (analysisProps (handle initial (StateUpdate (Some (stepOnly 2))))))).
Proof.
  apply (hook_fed_charts_never_fail
           (AnalysisTab.render AnalysisTab.unmounted
              (analysisProps (handle initial (StateUpdate (Some (stepOnly 2))))))).
  apply fedByHook_first, reachable_handle, reachable_initial.
Defined.

End HookToWindow.

(* ===================================================================== *)
(** * Tabs, export names, flows *)
(* ===================================================================== *)

Section AppProperties.

Lemma showsAnalysis_MainContent (activeTab : string) :
  MainContent.showsAnalysis (MainContent.MainContent activeTab)
  = String.eqb activeTab "Analysis".
Proof.
  unfold MainContent.MainContent.
  destruct (String.eqb activeTab "Network"),
    (String.eqb activeTab "Subsystems"),
    (String.eqb activeTab "Analysis"),
    (String.eqb activeTab "About"); reflexivity.
Qed.

(** X19.  For each tab the tab bar offers, the main area renders exactly
    that tab's content and nothing else; for any other value of the active
    tab it renders nothing.  The analysis tab is in the tree exactly when
    the active tab is "Analysis". *)
Theorem one_tab_at_a_time (activeTab : string) :
  MainContent.MainContent activeTab
  = (if String.eqb activeTab "Network" then [MainContent.ShowNetwork]
     else if String.eqb activeTab "Subsystems" then [MainContent.ShowSubsystems]
     else if String.eqb activeTab "Analysis" then [MainContent.ShowAnalysis]
     else if String.eqb activeTab "About" then [MainContent.ShowAbout]
     else [])
  /\ length (MainContent.MainContent activeTab)
     = (if bool_decide (activeTab ∈ MainContent.tabs) then 1 else 0)%nat
  /\ MainContent.showsAnalysis (MainContent.MainContent activeTab)
     = String.eqb activeTab "Analysis".
Proof.
  unfold MainContent.MainContent, MainContent.tabs.
  destruct (String.eqb_spec activeTab "Network") as [->|Hn];
    [repeat split; reflexivity|].
  destruct (String.eqb_spec activeTab "Subsystems") as [->|Hs];
    [repeat split; reflexivity|].
  destruct (String.eqb_spec activeTab "Analysis") as [->|Ha];
    [repeat split; reflexivity|].
  destruct (String.eqb_spec activeTab "About") as [->|Hb];
    [repeat split; reflexivity|].
  repeat split; try reflexivity.
  rewrite bool_decide_eq_false_2; [reflexivity|].
  rewrite !elem_of_cons, elem_of_nil. tauto.
Qed.

(** X20.  The history window does not survive leaving the Analysis tab:
    under any other active tab the analysis tab is unmounted, and on coming
    back its window holds only the snapshot then displayed (one entry if
    its step is positive, none if it is 0), whatever the window held. *)
Theorem leaving_analysis_discards_window
    (activeTab : string) (away back : AnalysisTab.Props)
    (tab : AnalysisTab.Tab) :
  activeTab <> "Analysis" ->
  MainContent.renderAnalysis activeTab away tab = AnalysisTab.unmounted
  /\ AnalysisTab.history
       (MainContent.renderAnalysis "Analysis" back
          (MainContent.renderAnalysis activeTab away tab))
     = (if 0 <? SimState.step (AnalysisTab.simState back)
        then [AnalysisTab.newEntry back]
        else []).
Proof.
  intros Hne.
  assert (Haway : MainContent.renderAnalysis activeTab away tab
                  = AnalysisTab.unmounted).
  { unfold MainContent.renderAnalysis.
    rewrite showsAnalysis_MainContent.
    destruct (String.eqb_spec activeTab "Analysis"); [contradiction|reflexivity]. }
  split; [exact Haway|].
  rewrite Haway.
  unfold MainContent.renderAnalysis, AnalysisTab.render; simpl.
  destruct (N.ltb_spec 0 (SimState.step (AnalysisTab.simState back)))
    as [Hpos|Hzero].
  - destruct (N.eqb_spec (SimState.step (AnalysisTab.simState back)) 0);
      [lia|reflexivity].
  - destruct (N.eqb_spec (SimState.step (AnalysisTab.simState back)) 0);
      reflexivity.
Qed.

Lemma leaving_analysis_discards_window_witness :
  AnalysisTab.history
    (MainContent.renderAnalysis "Analysis" (propsAt 121 121)
       (MainContent.renderAnalysis "Network" (propsAt 120 120)
          (AnalysisTab.renderAll (countingUp 119) AnalysisTab.unmounted)))
  = [AnalysisTab.newEntry (propsAt 121 121)].
Proof.
  apply (leaving_analysis_discards_window "Network"
           (propsAt 120 120) (propsAt 121 121)
           (AnalysisTab.renderAll (countingUp 119) AnalysisTab.unmounted)).
  discriminate.
Defined.





Lemma touching_flows_count (flows : list NetworkTab.Flow) (node : string) :
  Forall (fun f => NetworkTab.from f <> NetworkTab.to f) flows ->
  length (List.filter
            (fun f => String.eqb (NetworkTab.from f) node
                      || String.eqb (NetworkTab.to f) node) flows)
  = (length (List.filter (fun f => String.eqb (NetworkTab.from f) node) flows)
     + length (List.filter (fun f => String.eqb (NetworkTab.to f) node) flows))%nat.
Proof.
  induction 1 as [|f flows Hloop _ IH]; [reflexivity|].
  cbn [List.filter].
  destruct (String.eqb_spec (NetworkTab.from f) node) as [Hfrom|Hfrom];
    destruct (String.eqb_spec (NetworkTab.to f) node) as [Hto|Hto];
    cbn [orb length]; try lia.
  congruence.
Qed.

Lemma flows_have_no_loops :
  Forall (fun f => NetworkTab.from f <> NetworkTab.to f) NetworkTab.FLOWS.
Proof. repeat constructor; discriminate. Qed.

Lemma flows_have_positions :
  Forall (fun f => is_Some (NetworkTab.NODE_POSITIONS !! NetworkTab.from f)
                   /\ is_Some (NetworkTab.NODE_POSITIONS !! NetworkTab.to f))
         NetworkTab.FLOWS.
Proof. repeat constructor; eexists; reflexivity. Qed.

Lemma FlowArrow_drawn (f : NetworkTab.Flow) (active : bool)
    (size : NetworkTab.ContainerSize) :
  is_Some (NetworkTab.NODE_POSITIONS !! NetworkTab.from f) ->
  is_Some (NetworkTab.NODE_POSITIONS !! NetworkTab.to f) ->
  NetworkTab.width size <> 0 ->
  NetworkTab.FlowArrow f active size = Some (NetworkTab.mkArrow f active).
Proof.
  intros [pf Hf] [pt Ht] Hw. unfold NetworkTab.FlowArrow.
  rewrite Hf, Ht.
  destruct (N.eqb_spec (NetworkTab.width size) 0); [contradiction|reflexivity].
Qed.

Lemma drawn_active_flows (flows : list NetworkTab.Flow)
    (active : NetworkTab.Flow -> bool) (size : NetworkTab.ContainerSize) :
  Forall (fun f => is_Some (NetworkTab.NODE_POSITIONS !! NetworkTab.from f)
                   /\ is_Some (NetworkTab.NODE_POSITIONS !! NetworkTab.to f))
         flows ->
  NetworkTab.width size <> 0 ->
  map NetworkTab.arrowFlow
      (List.filter NetworkTab.isActive
         (omap (fun f => NetworkTab.FlowArrow f (active f) size) flows))
  = List.filter active flows.
Proof.
  intros Hpos Hw.
  induction Hpos as [|f flows [Hfrom Hto] _ IH]; [reflexivity|].
  cbn [omap list_omap]. rewrite (FlowArrow_drawn f (active f) size Hfrom Hto Hw).
  cbn [List.filter NetworkTab.isActive].
  destruct (active f); cbn [map NetworkTab.arrowFlow]; rewrite IH; reflexivity.
Qed.

Lemma unmeasured_draws_nothing (flows : list NetworkTab.Flow)
    (active : NetworkTab.Flow -> bool) (size : NetworkTab.ContainerSize) :
  NetworkTab.width size = 0 ->
  omap (fun f => NetworkTab.FlowArrow f (active f) size) flows = [].
Proof.
  intros Hw. induction flows as [|f flows IH]; [reflexivity|].
  cbn [omap list_omap]. rewrite IH. unfold NetworkTab.FlowArrow. rewrite Hw.
  destruct (NetworkTab.NODE_POSITIONS !! NetworkTab.from f),
    (NetworkTab.NODE_POSITIONS !! NetworkTab.to f); reflexivity.
Qed.

(** X22.  Once the structure has loaded and the container has been
    measured (non-zero width): while the simulation runs and a node is
    selected, the flows drawn active are those leaving or entering that
    node, and their number is the sum of the outgoing and incoming counts
    the stats panel prints; while it does not run no flow is drawn active;
    while it runs with nothing selected every flow is.  Before the
    structure has loaded, and while the measured width is 0, no arrow is
    drawn at all. *)
Theorem active_flows_match_stats
    (bert : NetworkTab.BertStructure) (size : NetworkTab.ContainerSize)
    (simState : option SimState.t) (node : string) :
  node <> "" ->
  NetworkTab.width size <> 0 ->
  (NetworkTab.isSimRunning simState = true ->
     length (NetworkTab.activeFlows (Some bert) simState (Some node) size)
     = (NetworkTab.outgoing node + NetworkTab.incoming node)%nat
     /\ (forall f,
           f ∈ NetworkTab.activeFlows (Some bert) simState (Some node) size
           <-> f ∈ NetworkTab.FLOWS
               /\ (NetworkTab.from f = node \/ NetworkTab.to f = node))
     /\ NetworkTab.activeFlows (Some bert) simState None size
        = NetworkTab.FLOWS)
  /\ (NetworkTab.isSimRunning simState = false ->
      forall selected,
        NetworkTab.activeFlows (Some bert) simState selected size = [])
  /\ (forall selected anySize,
        NetworkTab.arrows None simState selected anySize = [])
  /\ (forall selected unmeasured,
        NetworkTab.width unmeasured = 0 ->
        NetworkTab.arrows (Some bert) simState selected unmeasured = []).
Proof.
  intros Hnode Hw.
  assert (Hdrawn : forall selected,
    NetworkTab.activeFlows (Some bert) simState selected size
    = List.filter
        (NetworkTab.flowActive (NetworkTab.isSimRunning simState) selected)
        NetworkTab.FLOWS).
  { intros selected. unfold NetworkTab.activeFlows, NetworkTab.arrows.
    apply drawn_active_flows; [apply flows_have_positions | exact Hw]. }
  assert (Htruthy : App.truthy (Some node) = true).
  { simpl. destruct (String.eqb_spec node ""); [contradiction|reflexivity]. }
  assert (Hactive : forall f,
    NetworkTab.flowActive true (Some node) f
    = String.eqb (NetworkTab.from f) node
      || String.eqb (NetworkTab.to f) node).
  { intros f. unfold NetworkTab.flowActive. rewrite Htruthy. reflexivity. }
  split; [|split; [|split]].
  - intros Hrun. rewrite !Hdrawn, Hrun. split; [|split].
    + unfold NetworkTab.outgoing, NetworkTab.incoming.
      rewrite (List.filter_ext _ _ Hactive).
      apply touching_flows_count, flows_have_no_loops.
    + intros f.
      rewrite list_elem_of_In, List.filter_In, <- list_elem_of_In, Hactive.
      rewrite orb_true_iff, !String.eqb_eq. reflexivity.
    + reflexivity.
  - intros Hrun selected. rewrite Hdrawn, Hrun. reflexivity.
  - intros selected anySize. reflexivity.
  - intros selected unmeasured Hzero. unfold NetworkTab.arrows.
    apply unmeasured_draws_nothing, Hzero.
Qed.

Lemma active_flows_match_stats_witness :
  length (NetworkTab.activeFlows
            (Some (NetworkTab.mkBert []))
            (Some (SimState.mk 7 true)) (Some "Mining")
            (NetworkTab.mkSize 800 500)) = 4%nat.
Proof.
  destruct (active_flows_match_stats
              (NetworkTab.mkBert []) (NetworkTab.mkSize 800 500)
              (Some (SimState.mk 7 true)) "Mining")
    as [Hrunning _]; [discriminate | discriminate |].
  destruct (Hrunning eq_refl) as [Hcount _].
  rewrite Hcount. reflexivity.
Defined.

End AppProperties.
